(** * flask-monitoring-stack: the monitored service [app/app.py]

    A shallow embedding of the Flask application of [app/app.py] and of the
    part of Flask, Werkzeug, [psutil] and [time] that it calls, followed by
    the properties of its three routes.

    - Python strings are [string]s holding the UTF-8 bytes of the text.
    - Python floats are an abstract type of the host ([pyfloat]): the
      program only receives them from the host and formats them.
    - The machine the service runs on (wall clock, CPU and memory counters,
      the static folder) is the interface [Host]; one instance, [SimHost],
      is a small simulated machine on which everything evaluates.
    - View functions run in the monad [M]: they receive the world (the
      module's globals and the host) and return a value or raise. *)

From Stdlib Require Import String Ascii List Bool ZArith QArith Qround Lia Lqa.
Import ListNotations.
Local Open Scope string_scope.

Set Implicit Arguments.

(* ===================================================================== *)
(** ** Text helpers *)
(* ===================================================================== *)

Definition LF : ascii := ascii_of_nat 10.
Definition nl : string := String LF "".
Definition slash : ascii := "/"%char.

(** [c in s], for a one-character [c]. *)
Fixpoint has_char (c : ascii) (s : string) : bool :=
  match s with
  | EmptyString => false
  | String d s' => Ascii.eqb c d || has_char c s'
  end.

(** [s.split(c)]: the pieces of [s] between the occurrences of [c]. *)
Fixpoint split_on (c : ascii) (s : string) : list string :=
  match s with
  | EmptyString => [""]
  | String d s' =>
      if Ascii.eqb d c then "" :: split_on c s'
      else match split_on c s' with
           | [] => [String d ""]
           | piece :: pieces => String d piece :: pieces
           end
  end.

(** [s.split("\n")]. *)
Definition body_lines (s : string) : list string := split_on LF s.

(** [s.lstrip(c)]. *)
Fixpoint lstrip (c : ascii) (s : string) : string :=
  match s with
  | EmptyString => EmptyString
  | String d s' => if Ascii.eqb d c then lstrip c s' else s
  end.

(** [s.startswith(p)]. *)
Fixpoint startswith (s p : string) {struct p} : bool :=
  match p, s with
  | EmptyString, _ => true
  | String _ _, EmptyString => false
  | String a p', String b s' => Ascii.eqb a b && startswith s' p'
  end.

(** [needle in s]. *)
Fixpoint contains (needle s : string) : bool :=
  startswith s needle ||
  match s with
  | EmptyString => false
  | String _ s' => contains needle s'
  end.

(** [s[len(p):]] (used after [s.startswith(p)]). *)
Fixpoint drop (n : nat) (s : string) : string :=
  match n, s with
  | O, _ => s
  | S n', String _ s' => drop n' s'
  | S _, EmptyString => EmptyString
  end.

(** [s.partition(c)] without the separator: the text before the first [c]
    and the text after it. *)
Fixpoint cut (c : ascii) (s : string) : string * string :=
  match s with
  | EmptyString => ("", "")
  | String d s' =>
      if Ascii.eqb d c then ("", s')
      else let (a, b) := cut c s' in (String d a, b)
  end.

Definition upper_char (c : ascii) : ascii :=
  let n := nat_of_ascii c in
  if (97 <=? n)%nat && (n <=? 122)%nat then ascii_of_nat (n - 32) else c.

(** [s.upper()] on ASCII text. *)
Fixpoint upper (s : string) : string :=
  match s with
  | EmptyString => EmptyString
  | String c s' => String (upper_char c) (upper s')
  end.

Definition lower_char (c : ascii) : ascii :=
  let n := nat_of_ascii c in
  if (65 <=? n)%nat && (n <=? 90)%nat then ascii_of_nat (n + 32) else c.

Fixpoint lower (s : string) : string :=
  match s with
  | EmptyString => EmptyString
  | String c s' => String (lower_char c) (lower s')
  end.

(* ===================================================================== *)
(** ** The host: [time], [psutil] and the file system *)
(* ===================================================================== *)

(** A Python exception that is not an [HTTPException], by class name. *)
Definition pyexc : Type := string.

(** The named tuple that [psutil.virtual_memory()] returns (sizes in
    bytes, [percent] a float). *)
Record svmem (F : Type) : Type := {
  total : Z;
  available : Z;
  percent : F;
  used : Z;
  free : Z
}.

(** What looking up a file of the static folder for a request comes to
    ([werkzeug.utils.send_from_directory]): the response built for the
    file, with its status (200, or 206, 304, 416 for a range or conditional
    request), its headers and the content sent; no such file; or an
    exception, as for a file that cannot be read. *)
Inductive static_outcome : Type :=
| FileResponse (st : Z) (hs : list (string * string)) (content : string)
| FileMissing
| FileError (e : pyexc).

(** What the program needs of the machine it runs on.  [sys_time] is
    [time.time()], [sys_cpu_percent] is [psutil.cpu_percent(interval=...)],
    [sys_virtual_memory] is [psutil.virtual_memory()]; the samplers may
    raise.
    [float_str x] is [str(x)], which is what an f-string field [{x}]
    inserts; [float_val x] is the number [x] stands for and [wall h] the
    wall clock of the host in seconds.  [static_file name h] is what the
    static folder answers for [name]; the request headers it looks at are
    not part of [Request] and count as part of the host. *)
Class Host : Type := {
  pyfloat : Type;
  float_str : pyfloat -> string;
  float_val : pyfloat -> Q;
  host : Type;
  wall : host -> Q;
  sys_time : host -> pyfloat * host;
  sys_cpu_percent : Q -> host -> (pyexc + pyfloat) * host;
  sys_virtual_memory : host -> (pyexc + svmem pyfloat) * host;
  static_file : string -> host -> static_outcome
}.

(* ===================================================================== *)
(** ** HTTP messages *)
(* ===================================================================== *)

(** A request as the WSGI server hands it over: [REQUEST_METHOD] and
    [PATH_INFO]. *)
Record Request : Type := { method : string; path : string }.

(* ===================================================================== *)
(** ** Werkzeug's URL map *)
(* ===================================================================== *)

(** The shapes of rule this application has: a rule without variables that
    does not end in a slash (a leaf, ['/health']), one that does (a branch,
    ['/']), and a prefix followed by one [<path:arg>] variable
    (['/static/<path:filename>']). *)
Inductive pattern : Type :=
| Leaf (p : string)
| Branch (p : string)
| PathTail (pre arg : string).

Record Rule : Type := {
  rule : string;
  pat : pattern;
  endpoint : string;
  methods : list string;
  provide_automatic_options : bool
}.

Inductive hit : Type :=
| Hit (args : list (string * string))
| NeedSlash
| Miss.

(** Matching one rule, with [strict_slashes]: a leaf does not match with a
    slash added, a branch asks for its slash, and the [path] converter takes
    a non-empty rest that does not start with a slash. *)
Definition match_pattern (pt : pattern) (p : string) : hit :=
  match pt with
  | Leaf q => if p =? q then Hit [] else Miss
  | Branch q =>
      if p =? q then Hit []
      else if (p ++ "/") =? q then NeedSlash
      else Miss
  | PathTail pre arg =>
      if startswith p pre then
        match drop (String.length pre) p with
        | EmptyString => Miss
        | String c rest =>
            if Ascii.eqb c slash then Miss else Hit [(arg, String c rest)]
        end
      else Miss
  end.

Definition allows (r : Rule) (m : string) : bool :=
  existsb (String.eqb m) (methods r).

(** One pass of the matcher over the rules.  A rule that matches the path
    but not the method adds its methods to [have_match_for]. *)
Inductive pass : Type :=
| Found (r : Rule) (args : list (string * string))
| SlashRequired
| NoMatch (have_match_for : list string).

Fixpoint match_rules (rules : list Rule) (p m : string)
    (have_match_for : list string) : pass :=
  match rules with
  | [] => NoMatch have_match_for
  | r :: rules' =>
      match match_pattern (pat r) p with
      | Hit args =>
          if allows r m then Found r args
          else match_rules rules' p m (have_match_for ++ methods r)%list
      | NeedSlash =>
          if allows r m then SlashRequired
          else match_rules rules' p m have_match_for
      | Miss => match_rules rules' p m have_match_for
      end
  end.

(** [re.sub("/{2,}?", "/", path)]: left to right, each pair of slashes
    becomes one. *)
Fixpoint merge_slashes (s : string) : string :=
  match s with
  | String c ((String d s'') as s') =>
      if Ascii.eqb c slash && Ascii.eqb d slash
      then String slash (merge_slashes s'')
      else String c (merge_slashes s')
  | _ => s
  end.

(** [MapAdapter.match] reads the path as
    [f"/{path_info.lstrip('/')}" if path_info else ""]. *)
Definition path_part (path_info : string) : string :=
  match path_info with
  | EmptyString => ""
  | _ => String slash (lstrip slash path_info)
  end.

Inductive routing : Type :=
| Matched (r : Rule) (args : list (string * string))
| RequestRedirect (new_path : string)
| MethodNotAllowed (valid_methods : list string)
| NotFound.

(** [MapAdapter.match]: the method is upper-cased; when nothing matches,
    the matcher tries again with slashes merged, and a match there is
    answered by a redirect to the merged path. *)
Definition match_request (rules : list Rule) (req : Request) : routing :=
  let m := upper (method req) in
  let p := path_part (path req) in
  match match_rules rules p m [] with
  | Found r args => Matched r args
  | SlashRequired => RequestRedirect (p ++ "/")
  | NoMatch seen =>
      let p' := merge_slashes p in
      match match_rules rules p' m seen with
      | Found _ _ => RequestRedirect p'
      | SlashRequired => RequestRedirect (p' ++ "/")
      | NoMatch [] => NotFound
      | NoMatch seen' => MethodNotAllowed seen'
      end
  end.

(** [Map.add(Rule(rule, methods=..., endpoint=...))]: a rule that allows
    GET also allows HEAD. *)
Definition add_head (ms : list string) : list string :=
  if existsb (String.eqb "GET") ms && negb (existsb (String.eqb "HEAD") ms)
  then (ms ++ ["HEAD"])%list else ms.

(* ===================================================================== *)
(** ** Flask *)
(* ===================================================================== *)

(** Exceptions: Werkzeug's [HTTPException]s, by status code, and all the
    others. *)
Inductive exn : Type :=
| HTTPException (code : Z)
| Error (e : pyexc).

Inductive outcome (A : Type) : Type :=
| Returned (a : A)
| Raised (e : exn).
Arguments Raised {A} e.

Section Web.
Context {H : Host}.

(** A JSON document, as [jsonify] receives it. *)
#[warnings="-register-all"]
Inductive json : Type :=
| JStr (s : string)
| JNum (x : pyfloat)
| JObj (fields : list (string * json)).

(** Response bodies: text, the serialisation of a JSON document, a file of
    the static folder, the HTML page of an HTTP error, or nothing. *)
Inductive Body : Type :=
| BText (s : string)
| BJson (j : json)
| BFile (content : string)
| BErrorPage (code : Z)
| BEmpty.

(** Of the headers only [Content-Type] is tracked. *)
Record Response : Type := {
  status : Z;
  headers : list (string * string);
  body : Body
}.

(** [Headers.get(key)]: header names compare without case. *)
Fixpoint header (key : string) (hs : list (string * string)) : option string :=
  match hs with
  | [] => None
  | (k, v) :: hs' => if lower k =? lower key then Some v else header key hs'
  end.

(** [Headers.set(key, value)]: the first entry of that name takes the new
    value, further ones are dropped, a new name is appended. *)
Fixpoint header_remove (key : string) (hs : list (string * string)) :=
  match hs with
  | [] => []
  | (k, v) :: hs' =>
      if lower k =? lower key then header_remove key hs'
      else (k, v) :: header_remove key hs'
  end.

Fixpoint header_set (key value : string) (hs : list (string * string)) :=
  match hs with
  | [] => [(key, value)]
  | (k, v) :: hs' =>
      if lower k =? lower key then (key, value) :: header_remove key hs'
      else (k, v) :: header_set key value hs'
  end.

(** [Headers.update(d)] for a dict [d]. *)
Definition headers_update (d hs : list (string * string)) :=
  fold_left (fun acc kv => header_set (fst kv) (snd kv) acc) d hs.

Definition content_type (r : Response) : option string :=
  header "Content-Type" (headers r).

Definition html : string := "text/html; charset=utf-8".

(** The response Werkzeug renders for an [HTTPException] of that code. *)
Definition error_response (code : Z) : Response :=
  {| status := code; headers := [("Content-Type", html)];
     body := BErrorPage code |}.

(** [flask.jsonify(obj)]. *)
Definition jsonify (j : json) : Response :=
  {| status := 200; headers := [("Content-Type", "application/json")];
     body := BJson j |}.

(** What a view function may return: a body, a [(body, status)] pair or a
    [(body, status, headers)] triple, the body being a [str] or a response
    object. *)
Inductive rv_body : Type :=
| RStr (s : string)
| RResp (r : Response).

Inductive view_rv : Type :=
| Rv1 (b : rv_body)
| Rv2 (b : rv_body) (st : Z)
| Rv3 (b : rv_body) (st : Z) (hs : list (string * string)).

(** [Flask.make_response]: a [str] becomes an HTML response with status
    200; a given status replaces the status code and given headers update
    the headers. *)
Definition response_of_body (b : rv_body) : Response :=
  match b with
  | RStr s => {| status := 200; headers := [("Content-Type", html)];
                 body := BText s |}
  | RResp r => r
  end.

Definition make_response (rv : view_rv) : Response :=
  match rv with
  | Rv1 b => response_of_body b
  | Rv2 b st =>
      let r := response_of_body b in
      {| status := st; headers := headers r; body := body r |}
  | Rv3 b st hs =>
      let r := response_of_body b in
      {| status := st; headers := headers_update hs (headers r);
         body := body r |}
  end.

(** The application object: its URL map and, for every endpoint, the name
    of the function that serves it. *)
Record Flask : Type := {
  url_map : list Rule;
  view_functions : list (string * string)
}.

(** The world a request is served in: the application object that the
    module global [app] names (the only mutable object of the program) and
    the host. *)
Record World : Type := {
  flask_app : Flask;
  machine : host
}.

Definition on_machine (w : World) (h : host) : World :=
  {| flask_app := flask_app w; machine := h |}.

(** Python code: it runs in a world, changes it, and returns or raises. *)
Definition M (A : Type) : Type := World -> outcome A * World.

Definition ret {A} (a : A) : M A := fun w => (Returned a, w).

Definition raise {A} (e : exn) : M A := fun w => (Raised e, w).

Definition bind {A B} (c : M A) (k : A -> M B) : M B :=
  fun w =>
    match c w with
    | (Returned a, w') => k a w'
    | (Raised e, w') => (Raised e, w')
    end.

(** [try: c  except Exception as e: handler(e)]. *)
Definition try_except {A} (c : M A) (handler : exn -> M A) : M A :=
  fun w =>
    match c w with
    | (Returned a, w') => (Returned a, w')
    | (Raised e, w') => handler e w'
    end.

Definition of_host {A} (f : host -> (pyexc + A) * host) : M A :=
  fun w =>
    match f (machine w) with
    | (inr a, h) => (Returned a, on_machine w h)
    | (inl e, h) => (Raised (Error e), on_machine w h)
    end.

(** [time.time()], [psutil.cpu_percent(interval)] and
    [psutil.virtual_memory()] as the program calls them. *)
Definition time_time : M pyfloat :=
  fun w => let (t, h) := sys_time (machine w) in (Returned t, on_machine w h).

Definition psutil_cpu_percent (interval : Q) : M pyfloat :=
  of_host (sys_cpu_percent interval).

Definition psutil_virtual_memory : M (svmem pyfloat) :=
  of_host sys_virtual_memory.

End Web.

Declare Scope py_scope.
Delimit Scope py_scope with py.
Notation "x <- c ;; k" := (bind c (fun x => k))
  (at level 100, c at next level, right associativity) : py_scope.

Section FlaskApp.
Context {H : Host}.
Local Open Scope py_scope.

Definition view : Type := list (string * string) -> M view_rv.

(** [d.get(key)] on a dict kept as an association list. *)
Fixpoint lookup {A} (key : string) (d : list (string * A)) : option A :=
  match d with
  | [] => None
  | (k, a) :: d' => if k =? key then Some a else lookup key d'
  end.

(** [Flask.send_static_file(filename)]: the response built for the file
    is returned as it is, a missing file is [NotFound], and an exception
    raised while the file is opened is not caught. *)
Definition send_static_file : view :=
  fun kwargs w =>
    match lookup "filename" kwargs with
    | Some filename =>
        match static_file filename (machine w) with
        | FileResponse st hs content =>
            (Returned (Rv1 (RResp {| status := st; headers := hs;
                                     body := BFile content |})), w)
        | FileMissing => (Raised (HTTPException 404), w)
        | FileError e => (Raised (Error e), w)
        end
    | None => (Raised (Error "TypeError"), w)
    end.

(** How Werkzeug reads a rule string of one of the three shapes. *)
Definition parse_rule (r : string) : pattern :=
  match index 0 "<path:" r with
  | Some i =>
      PathTail (substring 0 i r)
               (substring (i + 6) (String.length r - (i + 6) - 1) r)
  | None =>
      match get (String.length r - 1) r with
      | Some c => if Ascii.eqb c slash then Branch r else Leaf r
      | None => Leaf r
      end
  end.

(** [Flask.add_url_rule(rule, endpoint, view_func)] without [methods]: the
    rule answers GET; OPTIONS is added and answered automatically; the URL
    map adds HEAD. *)
Definition add_url_rule (r ep f : string) (a : Flask) : Flask :=
  {| url_map :=
       url_map a ++
       [ {| rule := r; pat := parse_rule r; endpoint := ep;
            methods := add_head ["GET"; "OPTIONS"];
            provide_automatic_options := true |} ];
     view_functions := (ep, f) :: view_functions a |}.

(** [Flask(import_name)]: a new application serves the files of its static
    folder under [/static/]. *)
Definition Flask_new (import_name : string) : Flask :=
  add_url_rule "/static/<path:filename>" "static" "send_static_file"
    {| url_map := []; view_functions := [] |}.

(** [@app.route(rule)] on [def f]: the endpoint is the function's name. *)
Definition route (r f : string) (a : Flask) : Flask :=
  add_url_rule r f f a.

(** [Flask.make_default_options_response]. *)
Definition default_options_response : Response :=
  {| status := 200; headers := [("Content-Type", html)]; body := BEmpty |}.

Section Dispatch.
(** The functions defined in the process, by name. *)
Variable code : string -> option view.

(** [Flask.dispatch_request], after [Flask.make_response]. *)
Definition dispatch_request (req : Request) : M Response :=
  fun w =>
    match match_request (url_map (flask_app w)) req with
    | Matched r kwargs =>
        if provide_automatic_options r && (upper (method req) =? "OPTIONS")
        then (Returned default_options_response, w)
        else
          match lookup (endpoint r) (view_functions (flask_app w)) with
          | Some f =>
              match code f with
              | Some v => (rv <- v kwargs ;; ret (make_response rv)) w
              | None => (Raised (Error "NameError"), w)
              end
          | None => (Raised (Error "KeyError"), w)
          end
    | RequestRedirect _ => (Raised (HTTPException 308), w)
    | MethodNotAllowed _ => (Raised (HTTPException 405), w)
    | NotFound => (Raised (HTTPException 404), w)
    end.

(** [Flask.handle_user_exception] and [Flask.handle_exception]: an
    [HTTPException] is its own response, every other exception becomes
    500 Internal Server Error. *)
Definition handle_exception (e : exn) : M Response :=
  match e with
  | HTTPException c => ret (error_response c)
  | Error _ => ret (error_response 500)
  end.

(** [Response.get_app_iter]: the body of the answer to a request whose
    [REQUEST_METHOD] is HEAD is not sent. *)
Definition finalize (req : Request) (r : Response) : Response :=
  if method req =? "HEAD"
  then {| status := status r; headers := headers r; body := BEmpty |}
  else r.

(** [Flask.wsgi_app]: every request gets a response. *)
Definition wsgi_app (req : Request) (w : World) : Response * World :=
  match try_except (dispatch_request req) handle_exception w with
  | (Returned r, w') => (finalize req r, w')
  | (Raised _, w') => (error_response 500, w')
  end.

(** [app.run(...)]: the requests are served one after the other. *)
Fixpoint serve (reqs : list Request) (w : World) : list Response * World :=
  match reqs with
  | [] => ([], w)
  | req :: reqs' =>
      let (r, w') := wsgi_app req w in
      let (rs, w'') := serve reqs' w' in
      (r :: rs, w'')
  end.

End Dispatch.
End FlaskApp.


(* ===================================================================== *)
(** ** The application, [app/app.py] *)
(* ===================================================================== *)

Section App.
Context {H : Host}.
Local Open Scope py_scope.

(** [def health()] *)
Definition health : view :=
  fun _ =>
    t <- time_time ;;
    ret (Rv2 (RResp (jsonify (JObj [ ("status", JStr "healthy");
                                     ("timestamp", JNum t) ])))
             200).

(** [def home()] *)
Definition home : view :=
  fun _ => ret (Rv1 (RStr "Hello! I'm a simple monitored service! 👋")).

(** The f-string of [metrics], with its two fields. *)
Definition metrics_output (cpu_percent memory_percent : pyfloat) : string :=
  "# HELP cpu_usage_percent Current CPU usage" ++ nl ++
  "# TYPE cpu_usage_percent gauge" ++ nl ++
  "cpu_usage_percent " ++ float_str cpu_percent ++ nl ++
  nl ++
  "# HELP memory_usage_percent Current memory usage" ++ nl ++
  "# TYPE memory_usage_percent gauge" ++ nl ++
  "memory_usage_percent " ++ float_str memory_percent ++ nl ++
  nl ++
  "# HELP app_up Application is running" ++ nl ++
  "# TYPE app_up gauge" ++ nl ++
  "app_up 1" ++ nl.

(** [def metrics()] *)
Definition metrics : view :=
  fun _ =>
    cpu_percent <- psutil_cpu_percent 1 ;;
    memory <- psutil_virtual_memory ;;
    ret (Rv3 (RStr (metrics_output cpu_percent (percent memory))) 200
             [("Content-Type", "text/plain")]).

(** The functions of the process: the three views and Flask's own view of
    the static folder. *)
Definition functions (name : string) : option view :=
  if name =? "health" then Some health
  else if name =? "home" then Some home
  else if name =? "metrics" then Some metrics
  else if name =? "send_static_file" then Some send_static_file
  else None.

(** The module global [app] once the module body has run:
    [app = Flask(__name__)] and the three [@app.route] decorators. *)
Definition app : Flask :=
  route "/metrics" "metrics"
    (route "/" "home"
       (route "/health" "health"
          (Flask_new "__main__"))).

(** The world right after start-up, on a host in state [h]. *)
Definition boot (h : host) : World := {| flask_app := app; machine := h |}.

(** [app.run(host='0.0.0.0', port=8080)], for the requests that arrive. *)
Definition main (reqs : list Request) (h : host) : list Response * World :=
  serve functions reqs (boot h).

Definition GET (p : string) : Request := {| method := "GET"; path := p |}.
Definition POST (p : string) : Request := {| method := "POST"; path := p |}.
Definition HEAD (p : string) : Request := {| method := "HEAD"; path := p |}.
Definition OPTIONS (p : string) : Request :=
  {| method := "OPTIONS"; path := p |}.

End App.

(* ===================================================================== *)
(** ** A simulated host *)
(* ===================================================================== *)

(** Floats with one decimal, kept as a number of tenths; the clock counts
    tenths of a second; the load figures follow a pseudo-random sequence;
    a host whose counters cannot be read makes the samplers raise. *)
Module Sim.

Definition digit (n : nat) : ascii :=
  match n with
  | 0 => "0" | 1 => "1" | 2 => "2" | 3 => "3" | 4 => "4"
  | 5 => "5" | 6 => "6" | 7 => "7" | 8 => "8" | _ => "9"
  end%char%nat.

Fixpoint digits (fuel n : nat) (acc : string) : string :=
  match fuel with
  | O => acc
  | S fuel' =>
      let acc' := String (digit (n mod 10)) acc in
      if (n <? 10)%nat then acc' else digits fuel' (n / 10) acc'
  end.

Definition str_nat (n : nat) : string := digits (S n) n "".

(** [str(x)] for [x] tenths: [123] is ["12.3"]. *)
Definition str_tenths (x : Z) : string :=
  (if (x <? 0)%Z then "-" else "") ++
  str_nat (Z.to_nat (Z.abs x / 10)) ++ "." ++
  str_nat (Z.to_nat (Z.abs x mod 10)).

(** A file of the static folder: its media type and content, or a file
    that the process may not read. *)
Inductive entry : Type :=
| Readable (mimetype content : string)
| Unreadable.

Record state : Type := {
  clock : Z;
  seed : Z;
  counters_readable : bool;
  static_dir : list (string * entry)
}.

Definition send_file (name : string) (h : state) : static_outcome :=
  (fix find (d : list (string * entry)) : static_outcome :=
     match d with
     | [] => FileMissing
     | (n, e) :: d' =>
         if n =? name then
           match e with
           | Readable mt content =>
               FileResponse 200 [("Content-Type", mt)] content
           | Unreadable => FileError "PermissionError"
           end
         else find d'
     end) (static_dir h).

Definition next (s : Z) : Z := ((s * 1103515245 + 12345) mod 2147483648)%Z.

Definition tenth : Q := 1 # 10.

Definition cpu_percent (interval : Q) (h : state) : (pyexc + Z) * state :=
  if counters_readable h then
    (inr (seed h mod 1001)%Z,
     {| clock := clock h + Z.max 0 (Qceiling (interval * 10));
        seed := next (seed h);
        counters_readable := true;
        static_dir := static_dir h |})
  else (inl "PermissionError", h).

Definition gib : Z := 1073741824.

Definition virtual_memory (h : state) : (pyexc + svmem Z) * state :=
  if counters_readable h then
    let tot := (8 * gib)%Z in
    let use := (seed h mod (tot + 1))%Z in
    (inr {| total := tot; available := tot - use;
            percent := (use * 1000 / tot)%Z; used := use;
            free := tot - use |},
     {| clock := clock h; seed := next (seed h);
        counters_readable := true; static_dir := static_dir h |})
  else (inl "PermissionError", h).

End Sim.

#[export] Instance SimHost : Host := {|
  pyfloat := Z;
  float_str := Sim.str_tenths;
  float_val := fun x => inject_Z x * Sim.tenth;
  host := Sim.state;
  wall := fun h => inject_Z (Sim.clock h) * Sim.tenth;
  sys_time := fun h => (Sim.clock h, h);
  sys_cpu_percent := Sim.cpu_percent;
  sys_virtual_memory := Sim.virtual_memory;
  static_file := Sim.send_file
|}.

(** A machine at 1.7e9 s after the epoch, with readable counters and an
    empty static folder; the same with unreadable counters; and one with a
    style sheet and a file it may not read in its static folder. *)
Definition machine0 : @host SimHost :=
  {| Sim.clock := 17000000000; Sim.seed := 424242;
     Sim.counters_readable := true; Sim.static_dir := [] |}.

Definition sandbox0 : @host SimHost :=
  {| Sim.clock := 17000000000; Sim.seed := 424242;
     Sim.counters_readable := false; Sim.static_dir := [] |}.

Definition machine_css : @host SimHost :=
  {| Sim.clock := 17000000000; Sim.seed := 424242;
     Sim.counters_readable := true;
     Sim.static_dir :=
       [("style.css", Sim.Readable "text/css; charset=utf-8" "body {}");
        ("private.css", Sim.Unreadable)] |}.

(* ===================================================================== *)
(** ** Reading the text exposition format *)
(* ===================================================================== *)

(** What a scraper sees in a body: comment lines [# HELP name doc] and
    [# TYPE name type], sample lines [name value], and blank lines; a
    metric family is a run of lines about one name. *)
Module Exposition.

Inductive line : Type :=
| LHelp (name doc : string)
| LType (name typ : string)
| LSample (name value : string)
| LBlank.

Definition classify (l : string) : line :=
  if l =? "" then LBlank
  else if startswith l "# HELP " then
    let (n, d) := cut " " (drop 7 l) in LHelp n d
  else if startswith l "# TYPE " then
    let (n, t) := cut " " (drop 7 l) in LType n t
  else if startswith l "#" then LBlank
  else let (n, v) := cut " " l in LSample n v.

Record family : Type := {
  fam_name : string;
  fam_help : option string;
  fam_type : option string;
  fam_samples : list string
}.

Definition close (cur : option family) : list family :=
  match cur with
  | Some f => [f]
  | None => []
  end.

Fixpoint families_from (cur : option family) (ls : list line) : list family :=
  match ls with
  | [] => close cur
  | LBlank :: ls' => families_from cur ls'
  | LHelp n d :: ls' =>
      close cur ++
      families_from (Some {| fam_name := n; fam_help := Some d;
                             fam_type := None; fam_samples := [] |}) ls'
  | LType n t :: ls' =>
      match cur with
      | Some {| fam_name := n'; fam_help := h; fam_type := None;
                fam_samples := [] |} =>
          if n' =? n
          then families_from (Some {| fam_name := n; fam_help := h;
                                      fam_type := Some t;
                                      fam_samples := [] |}) ls'
          else close cur ++
               families_from (Some {| fam_name := n; fam_help := None;
                                      fam_type := Some t;
                                      fam_samples := [] |}) ls'
      | _ => close cur ++
             families_from (Some {| fam_name := n; fam_help := None;
                                    fam_type := Some t;
                                    fam_samples := [] |}) ls'
      end
  | LSample n v :: ls' =>
      match cur with
      | Some f =>
          if fam_name f =? n
          then families_from (Some {| fam_name := n; fam_help := fam_help f;
                                      fam_type := fam_type f;
                                      fam_samples := fam_samples f ++ [v] |})
                             ls'
          else [f] ++
               families_from (Some {| fam_name := n; fam_help := None;
                                      fam_type := None;
                                      fam_samples := [v] |}) ls'
      | None =>
          families_from (Some {| fam_name := n; fam_help := None;
                                 fam_type := None; fam_samples := [v] |}) ls'
      end
  end.

(** The metric families of a text, in order. *)
Definition parse (txt : string) : list family :=
  families_from None (map classify (body_lines txt)).

(** A gauge with its HELP line, its TYPE line and its sample values. *)
Definition gauge (name doc : string) (values : list string) : family :=
  {| fam_name := name; fam_help := Some doc; fam_type := Some "gauge";
     fam_samples := values |}.

(** The sample values of the family [name]. *)
Definition samples_of (name : string) (fs : list family) : list string :=
  concat (map fam_samples (filter (fun f => fam_name f =? name) fs)).

End Exposition.

Section Reading.
Context {H : Host}.

Definition families (r : Response) : list Exposition.family :=
  match body r with
  | BText txt => Exposition.parse txt
  | _ => []
  end.

(** The three metric families of a successful metrics response, for the
    two figures the samplers gave. *)
Definition three_gauges (c m : pyfloat) : list Exposition.family :=
  [ Exposition.gauge "cpu_usage_percent" "Current CPU usage" [float_str c];
    Exposition.gauge "memory_usage_percent" "Current memory usage"
                     [float_str m];
    Exposition.gauge "app_up" "Application is running" ["1"] ].

(** The sample values of app_up in a response. *)
Definition app_up_samples (r : Response) : list string :=
  Exposition.samples_of "app_up" (families r).

End Reading.

(* ===================================================================== *)
(** ** Statelessness *)
(* ===================================================================== *)

Section Frame.
Context {H : Host}.

Definition with_app (a : Flask) (w : World) : World :=
  {| flask_app := a; machine := machine w |}.

(** A view is stateless when the application object is a frame for it:
    run with any application object in place, it gives the same outcome,
    has the same effect on the host, and leaves that object in place. *)
Definition stateless (v : view) : Prop :=
  forall kw w a,
    v kw (with_app a w) = (fst (v kw w), with_app a (snd (v kw w))).

End Frame.

(* ===================================================================== *)
(** ** Notions for the further properties *)
(* ===================================================================== *)

Section Notions.
Context {H : Host}.

(** A response as a HEAD request receives it. *)
Definition without_body (r : Response) : Response :=
  {| status := status r; headers := headers r; body := BEmpty |}.

(** The response of [home], whatever the world. *)
Definition greeting_response : Response :=
  {| status := 200; headers := [("Content-Type", html)];
     body := BText "Hello! I'm a simple monitored service! 👋" |}.

(** The body of a healthy liveness response with that timestamp. *)
Definition healthy (t : pyfloat) : Body :=
  BJson (JObj [("status", JStr "healthy"); ("timestamp", JNum t)]).

(** Both samplers return when [metrics] runs on host state [h]. *)
Definition samplers_return (h : host) : Prop :=
  exists c h1 m h2,
    sys_cpu_percent 1 h = (inr c, h1) /\ sys_virtual_memory h1 = (inr m, h2).

(** [time.time()] reads the wall clock and does not turn it back. *)
Definition time_reads_wall : Prop :=
  forall h, float_val (fst (sys_time h)) == wall h /\
            wall h <= wall (snd (sys_time h)).

End Notions.

(** The status of the error that routing ends in, if it does. *)
Definition routing_error (rt : routing) : option Z :=
  match rt with
  | Matched _ _ => None
  | RequestRedirect _ => Some 308%Z
  | MethodNotAllowed _ => Some 405%Z
  | NotFound => Some 404%Z
  end.

(* ===================================================================== *)
(** ** What the program relies on from its libraries *)
(* ===================================================================== *)

Section Contracts.
Context {H : Host}.

(** [str] of a float is one line of text. *)
Definition single_line_floats : Prop :=
  forall x : pyfloat, has_char LF (float_str x) = false.

(** [psutil.cpu_percent(interval)] returns only after [interval] seconds,
    and [psutil.virtual_memory()] does not turn the clock back. *)
Definition sampler_blocks : Prop :=
  forall i h v h', sys_cpu_percent i h = (inr v, h') -> wall h + i <= wall h'.

Definition clock_moves_on : Prop :=
  forall h r h', sys_virtual_memory h = (r, h') -> wall h <= wall h'.

(** The figures of [psutil] are percentages. *)
Definition is_percentage (x : pyfloat) : Prop :=
  0 <= float_val x /\ float_val x <= 100.

Definition samplers_give_percentages : Prop :=
  (forall i h v h', sys_cpu_percent i h = (inr v, h') -> is_percentage v) /\
  (forall h m h', sys_virtual_memory h = (inr m, h') ->
                  is_percentage (percent m)).

End Contracts.

(* ===================================================================== *)
(** ** Lemmas on text *)
(* ===================================================================== *)

Lemma append_assoc (a b c : string) : (a ++ b) ++ c = a ++ (b ++ c).
Proof. induction a as [|x a IH]; simpl; [reflexivity | now rewrite IH]. Qed.

Lemma has_char_app c (a b : string) :
  has_char c (a ++ b) = has_char c a || has_char c b.
Proof.
  induction a as [|x a IH]; simpl; [reflexivity|].
  rewrite IH. now rewrite orb_assoc.
Qed.

(** A piece without the separator, followed by the separator, is the
    first piece of the split. *)
Lemma split_on_piece c (s t : string) :
  has_char c s = false ->
  split_on c (s ++ String c t) = s :: split_on c t.
Proof.
  induction s as [|d s IH]; simpl; intros Hs.
  - now rewrite Ascii.eqb_refl.
  - apply orb_false_elim in Hs as [Hd Hs].
    rewrite Ascii.eqb_sym in Hd. rewrite Hd, (IH Hs). reflexivity.
Qed.

Lemma body_lines_line (s t : string) :
  has_char LF s = false -> body_lines (s ++ nl ++ t) = s :: body_lines t.
Proof. intros Hs. unfold body_lines, nl. simpl. now apply split_on_piece. Qed.

Lemma body_lines_blank (t : string) : body_lines (nl ++ t) = "" :: body_lines t.
Proof. reflexivity. Qed.

(* ===================================================================== *)
(** ** The views *)
(* ===================================================================== *)

Section Views.
Context {H : Host}.

(** The lines of the metrics text, when floats print on one line. *)
Lemma metrics_output_lines (c m : pyfloat) :
  single_line_floats ->
  body_lines (metrics_output c m) =
  [ "# HELP cpu_usage_percent Current CPU usage";
    "# TYPE cpu_usage_percent gauge";
    "cpu_usage_percent " ++ float_str c;
    "";
    "# HELP memory_usage_percent Current memory usage";
    "# TYPE memory_usage_percent gauge";
    "memory_usage_percent " ++ float_str m;
    "";
    "# HELP app_up Application is running";
    "# TYPE app_up gauge";
    "app_up 1";
    "" ].
Proof.
  intros Hfl. unfold metrics_output.
  rewrite 2 body_lines_line by reflexivity.
  rewrite <- (append_assoc "cpu_usage_percent " (float_str c)).
  rewrite body_lines_line
    by (rewrite has_char_app, Hfl; reflexivity).
  rewrite body_lines_blank.
  rewrite 2 body_lines_line by reflexivity.
  rewrite <- (append_assoc "memory_usage_percent " (float_str m)).
  rewrite body_lines_line
    by (rewrite has_char_app, Hfl; reflexivity).
  rewrite body_lines_blank.
  rewrite 2 body_lines_line by reflexivity.
  reflexivity.
Qed.

(** The metric families of the metrics text. *)
Lemma metrics_output_families (c m : pyfloat) :
  single_line_floats ->
  Exposition.parse (metrics_output c m) =
  [ Exposition.gauge "cpu_usage_percent" "Current CPU usage" [float_str c];
    Exposition.gauge "memory_usage_percent" "Current memory usage"
                     [float_str m];
    Exposition.gauge "app_up" "Application is running" ["1"] ].
Proof.
  intros Hfl. unfold Exposition.parse.
  rewrite (metrics_output_lines c m Hfl). reflexivity.
Qed.

End Views.

(* ===================================================================== *)
(** ** Serving a request *)
(* ===================================================================== *)

Section Serving.
Context {H : Host}.

(** A request that the URL map gives to a view function is answered by
    running it: its return value becomes the response, an [HTTPException]
    its own response and any other exception a 500. *)
Lemma wsgi_app_runs_view code req r kw f (v : view) w :
  match_request (url_map (flask_app w)) req = Matched r kw ->
  provide_automatic_options r && (upper (method req) =? "OPTIONS") = false ->
  lookup (endpoint r) (view_functions (flask_app w)) = Some f ->
  code f = Some v ->
  wsgi_app code req w =
  match v kw w with
  | (Returned rv, w') => (finalize req (make_response rv), w')
  | (Raised (HTTPException c), w') => (finalize req (error_response c), w')
  | (Raised (Error _), w') => (finalize req (error_response 500), w')
  end.
Proof.
  intros Hm Ho Hl Hc.
  unfold wsgi_app, try_except, dispatch_request.
  rewrite Hm, Ho, Hl, Hc. unfold bind, ret.
  destruct (v kw w) as [[rv|[c|e]] w']; reflexivity.
Qed.

Lemma wsgi_app_health w :
  flask_app w = app ->
  wsgi_app functions (GET "/health") w =
  match health [] w with
  | (Returned rv, w') => (make_response rv, w')
  | (Raised (HTTPException c), w') => (error_response c, w')
  | (Raised (Error _), w') => (error_response 500, w')
  end.
Proof.
  intros Ha.
  rewrite (@wsgi_app_runs_view functions (GET "/health")
             {| rule := "/health"; pat := Leaf "/health";
                endpoint := "health"; methods := ["GET"; "OPTIONS"; "HEAD"];
                provide_automatic_options := true |} [] "health" health w);
    try (rewrite Ha; reflexivity); reflexivity.
Qed.

Lemma wsgi_app_home w :
  flask_app w = app ->
  wsgi_app functions (GET "/") w =
  match home [] w with
  | (Returned rv, w') => (make_response rv, w')
  | (Raised (HTTPException c), w') => (error_response c, w')
  | (Raised (Error _), w') => (error_response 500, w')
  end.
Proof.
  intros Ha.
  rewrite (@wsgi_app_runs_view functions (GET "/")
             {| rule := "/"; pat := Branch "/";
                endpoint := "home"; methods := ["GET"; "OPTIONS"; "HEAD"];
                provide_automatic_options := true |} [] "home" home w);
    try (rewrite Ha; reflexivity); reflexivity.
Qed.

Lemma wsgi_app_metrics w :
  flask_app w = app ->
  wsgi_app functions (GET "/metrics") w =
  match metrics [] w with
  | (Returned rv, w') => (make_response rv, w')
  | (Raised (HTTPException c), w') => (error_response c, w')
  | (Raised (Error _), w') => (error_response 500, w')
  end.
Proof.
  intros Ha.
  rewrite (@wsgi_app_runs_view functions (GET "/metrics")
             {| rule := "/metrics"; pat := Leaf "/metrics";
                endpoint := "metrics"; methods := ["GET"; "OPTIONS"; "HEAD"];
                provide_automatic_options := true |} [] "metrics" metrics w);
    try (rewrite Ha; reflexivity); reflexivity.
Qed.

(** [metrics] returns exactly when both samplers return, and then with
    their two figures. *)
Lemma metrics_returned kw w rv w' :
  metrics kw w = (Returned rv, w') ->
  exists c h1 m h2,
    sys_cpu_percent 1 (machine w) = (inr c, h1) /\
    sys_virtual_memory h1 = (inr m, h2) /\
    rv = Rv3 (RStr (metrics_output c (percent m))) 200
             [("Content-Type", "text/plain")] /\
    w' = on_machine w h2.
Proof.
  unfold metrics, bind, psutil_cpu_percent, psutil_virtual_memory, of_host, ret.
  destruct (sys_cpu_percent 1 (machine w)) as [[e|c] h1] eqn:Hc;
    [discriminate|].
  simpl.
  destruct (sys_virtual_memory h1) as [[e|m] h2] eqn:Hm; [discriminate|].
  intros E. inversion E; subst. exists c, h1, m, h2. auto.
Qed.

(** Conversely, when both samplers return, so does [metrics]. *)
Lemma metrics_returns kw w c h1 m h2 :
  sys_cpu_percent 1 (machine w) = (inr c, h1) ->
  sys_virtual_memory h1 = (inr m, h2) ->
  metrics kw w =
  (Returned (Rv3 (RStr (metrics_output c (percent m))) 200
                 [("Content-Type", "text/plain")]),
   on_machine w h2).
Proof.
  intros Hc Hm.
  unfold metrics, bind, psutil_cpu_percent, psutil_virtual_memory, of_host, ret.
  rewrite Hc. simpl. rewrite Hm. reflexivity.
Qed.

(** [metrics] raises exactly the exception of the sampler that failed,
    and never an [HTTPException]. *)
Lemma metrics_raised kw w e w' :
  metrics kw w = (Raised e, w') ->
  exists x,
    e = Error x /\
    (fst (sys_cpu_percent 1 (machine w)) = inl x \/
     exists c h1, sys_cpu_percent 1 (machine w) = (inr c, h1) /\
                  fst (sys_virtual_memory h1) = inl x).
Proof.
  unfold metrics, bind, psutil_cpu_percent, psutil_virtual_memory, of_host, ret.
  destruct (sys_cpu_percent 1 (machine w)) as [[x|c] h1] eqn:Hc.
  - intros E. inversion E; subst. exists x. auto.
  - simpl. destruct (sys_virtual_memory h1) as [[x|m] h2] eqn:Hm;
      [|discriminate].
    intros E. inversion E; subst. exists x. split; [reflexivity|].
    right. exists c, h1. rewrite Hm. auto.
Qed.

End Serving.

(* ===================================================================== *)
(** ** The simulated host honours the contracts *)
(* ===================================================================== *)

Lemma sim_digit_not_LF n : Ascii.eqb LF (Sim.digit n) = false.
Proof. do 10 (destruct n as [|n]; [reflexivity|]). reflexivity. Qed.

Lemma sim_digits_single_line fuel : forall n acc,
  has_char LF acc = false -> has_char LF (Sim.digits fuel n acc) = false.
Proof.
  induction fuel as [|fuel IH]; intros n acc Hacc; cbn [Sim.digits];
    [exact Hacc|].
  assert (Hacc' : has_char LF (String (Sim.digit (n mod 10)) acc) = false)
    by (cbn [has_char]; now rewrite sim_digit_not_LF, Hacc).
  destruct (n <? 10)%nat; [exact Hacc' | now apply IH].
Qed.

Lemma sim_single_line_floats : @single_line_floats SimHost.
Proof.
  intros x. simpl. unfold Sim.str_tenths, Sim.str_nat.
  rewrite !has_char_app, !sim_digits_single_line by reflexivity.
  destruct (x <? 0)%Z; reflexivity.
Qed.

Lemma sim_sampler_blocks : @sampler_blocks SimHost.
Proof.
  intros i h v h' E. change (Sim.cpu_percent i h = (inr v, h')) in E.
  unfold Sim.cpu_percent in E.
  destruct (Sim.counters_readable h); [|discriminate].
  injection E as _ <-.
  change (inject_Z (Sim.clock h) * Sim.tenth + i <=
          inject_Z (Sim.clock h + Z.max 0 (Qceiling (i * 10))) * Sim.tenth).
  rewrite inject_Z_plus.
  assert (Hc : i * 10 <= inject_Z (Z.max 0 (Qceiling (i * 10)))).
  { eapply Qle_trans; [apply Qle_ceiling|].
    rewrite <- Zle_Qle. apply Z.le_max_r. }
  unfold Sim.tenth.
  generalize dependent (inject_Z (Z.max 0 (Qceiling (i * 10)))).
  generalize (inject_Z (Sim.clock h)). intros a b Hb. lra.
Qed.

Lemma sim_clock_moves_on : @clock_moves_on SimHost.
Proof.
  intros h r h' E. change (Sim.virtual_memory h = (r, h')) in E.
  unfold Sim.virtual_memory in E.
  destruct (Sim.counters_readable h);
    apply (f_equal snd) in E; cbn [snd] in E; subst h'; apply Qle_refl.
Qed.

Lemma sim_tenths_percentage (x : Z) :
  (0 <= x <= 1000)%Z -> @is_percentage SimHost x.
Proof.
  intros [H0 H1]. unfold is_percentage.
  change (0 <= inject_Z x * Sim.tenth /\ inject_Z x * Sim.tenth <= 100).
  rewrite Zle_Qle in H0, H1. unfold Sim.tenth.
  change (inject_Z 0) with 0 in H0. change (inject_Z 1000) with 1000 in H1.
  generalize dependent (inject_Z x). intros q H0 H1. lra.
Qed.

Lemma sim_samplers_give_percentages : @samplers_give_percentages SimHost.
Proof.
  split.
  - intros i h v h' E. change (Sim.cpu_percent i h = (inr v, h')) in E.
    unfold Sim.cpu_percent in E.
    destruct (Sim.counters_readable h); [|discriminate].
    injection E as <- _.
    apply sim_tenths_percentage.
    pose proof (Z.mod_pos_bound (Sim.seed h) 1001). lia.
  - intros h m h' E. change (Sim.virtual_memory h = (inr m, h')) in E.
    unfold Sim.virtual_memory in E.
    destruct (Sim.counters_readable h); [|discriminate].
    apply (f_equal (fun r => match fst r with
                             | inr v => percent v
                             | inl _ => 0%Z
                             end)) in E.
    cbn [fst percent] in E.
    change (@is_percentage SimHost (@percent Z m)). rewrite <- E. clear E.
    apply sim_tenths_percentage.
    assert (Hg : (0 < 8 * Sim.gib)%Z) by reflexivity.
    pose proof (Z.mod_pos_bound (Sim.seed h) (8 * Sim.gib + 1)) as Hb.
    generalize dependent (8 * Sim.gib)%Z. intros tot Hg Hb.
    split.
    + apply Z.div_pos; lia.
    + apply Z.div_le_upper_bound; lia.
Qed.

(* ===================================================================== *)
(** ** Lemmas on the URL map *)
(* ===================================================================== *)


(** When no rule allows the method, a pass collects the methods of the
    rules that match the path. *)
Lemma match_rules_not_allowed rules p m : forall seen,
  Forall (fun r => allows r m = false) rules ->
  match_rules rules p m seen =
  NoMatch (seen ++ flat_map methods
                     (filter (fun r => match match_pattern (pat r) p with
                                       | Hit _ => true
                                       | _ => false
                                       end) rules)).
Proof.
  induction rules as [|r rules IH]; intros seen Hall; simpl.
  - now rewrite app_nil_r.
  - inversion Hall as [|? ? Hr Hrest]; subst.
    destruct (match_pattern (pat r) p); rewrite ?Hr; simpl.
    + rewrite (IH _ Hrest). now rewrite app_assoc.
    + apply (IH _ Hrest).
    + apply (IH _ Hrest).
Qed.






(* ===================================================================== *)
(** ** The routes *)
(* ===================================================================== *)

Section Routes.
Context {H : Host}.

(** The response to GET /metrics when [metrics] returns. *)
Lemma metrics_success w rv w' :
  flask_app w = app ->
  metrics [] w = (Returned rv, w') ->
  exists c h1 m,
    sys_cpu_percent 1 (machine w) = (inr c, h1) /\
    sys_virtual_memory h1 = (inr m, machine w') /\
    flask_app w' = app /\
    wsgi_app functions (GET "/metrics") w =
    ({| status := 200; headers := [("Content-Type", "text/plain")];
        body := BText (metrics_output c (percent m)) |}, w').
Proof.
  intros Ha Hm. rewrite (wsgi_app_metrics w Ha), Hm.
  destruct (metrics_returned _ _ Hm) as (c & h1 & m & h2 & Hc & Hv & -> & ->).
  exists c, h1, m. repeat split; auto.
Qed.

(** C2: GET /health is answered with status 200 and a JSON object with
    exactly the two fields [status], the string "healthy", and
    [timestamp], the float that [time.time()] returns when the request is
    handled. *)
Theorem health_response (w : World) :
  flask_app w = app ->
  let r := fst (wsgi_app functions (GET "/health") w) in
  let now := fst (sys_time (machine w)) in
  status r = 200%Z /\
  content_type r = Some "application/json" /\
  body r = BJson (JObj [("status", JStr "healthy"); ("timestamp", JNum now)]) /\
  (forall fields, body r = BJson (JObj fields) ->
                  map fst fields = ["status"; "timestamp"]).
Proof.
  intros Ha r now. subst r now. rewrite (wsgi_app_health w Ha).
  unfold health, bind, time_time, ret.
  destruct (sys_time (machine w)) as [t h]. simpl.
  repeat split; try reflexivity.
  intros fields E. inversion E. reflexivity.
Qed.

(** C7: GET / is answered with status 200 and the greeting as its text,
    which is not empty; the view returns in every world and does not
    touch it. *)
Theorem home_response (w : World) :
  flask_app w = app ->
  let r := fst (wsgi_app functions (GET "/") w) in
  status r = 200%Z /\
  (exists txt, body r = BText txt /\ txt <> "" /\
               contains "Hello! I'm a simple monitored service!" txt = true) /\
  (forall kw w0, exists rv, home kw w0 = (Returned rv, w0)).
Proof.
  intros Ha r. subst r. rewrite (wsgi_app_home w Ha).
  split; [reflexivity|]. split.
  - eexists. split; [reflexivity|]. split; [discriminate | reflexivity].
  - intros kw w0. eexists. reflexivity.
Qed.

(** C1: a GET /metrics whose view returns is answered with status 200 and
    Content-Type text/plain, and its body holds exactly three metric
    families, each a HELP line, a [# TYPE name gauge] line and one sample
    line, in the order cpu_usage_percent, memory_usage_percent, app_up. *)
Theorem metrics_response_format (w : World) (rv : view_rv) (w' : World) :
  single_line_floats ->
  flask_app w = app ->
  metrics [] w = (Returned rv, w') ->
  let r := fst (wsgi_app functions (GET "/metrics") w) in
  status r = 200%Z /\
  content_type r = Some "text/plain" /\
  exists c m, families r = three_gauges c m.
Proof.
  intros Hfl Ha Hm r. subst r.
  destruct (metrics_success w Ha Hm) as (c & h1 & m & _ & _ & _ & ->).
  split; [reflexivity|]. split; [reflexivity|].
  exists c, (percent m). apply metrics_output_families, Hfl.
Qed.

(** C3: when a sampler raises while GET /metrics is handled, the view
    raises that same exception and the response is a 500, not a 200. *)
Theorem metrics_sampler_failure (w : World) (e : pyexc) :
  flask_app w = app ->
  (fst (sys_cpu_percent 1 (machine w)) = inl e \/
   exists c h1, sys_cpu_percent 1 (machine w) = (inr c, h1) /\
                fst (sys_virtual_memory h1) = inl e) ->
  fst (metrics [] w) = Raised (Error e) /\
  let r := fst (wsgi_app functions (GET "/metrics") w) in
  status r = 500%Z /\ status r <> 200%Z /\ families r = [].
Proof.
  intros Ha Hfail. rewrite (wsgi_app_metrics w Ha).
  unfold metrics, bind, psutil_cpu_percent, psutil_virtual_memory, of_host, ret.
  destruct Hfail as [Hc | (c & h1 & Hc & Hv)].
  - destruct (sys_cpu_percent 1 (machine w)) as [[x|c] h1]; simpl in Hc;
      [|discriminate].
    injection Hc as ->. simpl. repeat split; discriminate.
  - rewrite Hc. simpl.
    destruct (sys_virtual_memory h1) as [[x|m] h2]; simpl in Hv;
      [|discriminate].
    injection Hv as ->. simpl. repeat split; discriminate.
Qed.

(** C4: a GET /metrics whose view returns has called
    [psutil.cpu_percent(interval=1)], so that on a host where that call
    takes its interval the response comes at least one second after the
    request. *)
Theorem metrics_takes_a_second (w : World) (rv : view_rv) (w' : World) :
  sampler_blocks ->
  clock_moves_on ->
  flask_app w = app ->
  metrics [] w = (Returned rv, w') ->
  let w1 := snd (wsgi_app functions (GET "/metrics") w) in
  (exists c h1, sys_cpu_percent 1 (machine w) = (inr c, h1)) /\
  wall (machine w) + 1 <= wall (machine w1).
Proof.
  intros Hb Hmv Ha Hm w1. subst w1.
  destruct (metrics_success w Ha Hm) as (c & h1 & m & Hc & Hv & _ & ->).
  split; [now exists c, h1|]. simpl.
  apply Qle_trans with (wall h1); [exact (Hb _ _ _ _ Hc) | exact (Hmv _ _ _ Hv)].
Qed.

(** C5: on a host whose samplers give percentages, the sample lines of
    cpu_usage_percent and memory_usage_percent in a successful metrics
    response carry the two figures read, each between 0 and 100. *)
Theorem metrics_values_in_range (w : World) (rv : view_rv) (w' : World) :
  single_line_floats ->
  samplers_give_percentages ->
  flask_app w = app ->
  metrics [] w = (Returned rv, w') ->
  let r := fst (wsgi_app functions (GET "/metrics") w) in
  exists c m,
    Exposition.samples_of "cpu_usage_percent" (families r) = [float_str c] /\
    is_percentage c /\
    Exposition.samples_of "memory_usage_percent" (families r) = [float_str m] /\
    is_percentage m.
Proof.
  intros Hfl [Hpc Hpm] Ha Hm r. subst r.
  destruct (metrics_success w Ha Hm) as (c & h1 & m & Hc & Hv & _ & ->).
  exists c, (percent m). unfold families. cbn [fst body].
  rewrite (metrics_output_families c (percent m) Hfl).
  repeat split; try reflexivity.
  - apply (Hpc _ _ _ _ Hc).
  - apply (Hpc _ _ _ _ Hc).
  - apply (Hpm _ _ _ Hv).
  - apply (Hpm _ _ _ Hv).
Qed.

End Routes.

(* ===================================================================== *)
(** ** The program state *)
(* ===================================================================== *)

Section State.
Context {H : Host}.

Lemma stateless_keeps_app v :
  stateless v -> forall kw w, flask_app (snd (v kw w)) = flask_app w.
Proof.
  intros Hv kw w. specialize (Hv kw w (flask_app w)).
  replace (with_app (flask_app w) w) with w in Hv by (now destruct w).
  apply (f_equal snd) in Hv. simpl in Hv.
  rewrite Hv at 1. reflexivity.
Qed.

Lemma health_stateless : stateless health.
Proof.
  intros kw w a. unfold health, bind, time_time, ret, with_app. simpl.
  destruct (sys_time (machine w)) as [t h]. reflexivity.
Qed.

Lemma home_stateless : stateless home.
Proof. intros kw w a. reflexivity. Qed.

Lemma metrics_stateless : stateless metrics.
Proof.
  intros kw w a.
  unfold metrics, bind, psutil_cpu_percent, psutil_virtual_memory, of_host,
    ret, with_app.
  simpl.
  destruct (sys_cpu_percent 1 (machine w)) as [[e|c] h1]; [reflexivity|].
  simpl.
  destruct (sys_virtual_memory h1) as [[e|m] h2]; reflexivity.
Qed.

Lemma send_static_file_stateless : stateless send_static_file.
Proof.
  intros kw w a. unfold send_static_file, with_app. simpl.
  destruct (lookup "filename" kw) as [f|]; [|reflexivity].
  destruct (static_file f (machine w)); reflexivity.
Qed.

Lemma functions_stateless f v : functions f = Some v -> stateless v.
Proof.
  unfold functions.
  destruct (f =? "health"); [intros E; injection E as <-; apply health_stateless|].
  destruct (f =? "home"); [intros E; injection E as <-; apply home_stateless|].
  destruct (f =? "metrics");
    [intros E; injection E as <-; apply metrics_stateless|].
  destruct (f =? "send_static_file");
    [intros E; injection E as <-; apply send_static_file_stateless|].
  discriminate.
Qed.

(** Serving a request leaves the application object as it was, whatever
    the request. *)
Lemma wsgi_app_keeps_app req w :
  flask_app (snd (wsgi_app functions req w)) = flask_app w.
Proof.
  unfold wsgi_app, try_except, dispatch_request.
  destruct (match_request (url_map (flask_app w)) req) as [r kw|p|ms|];
    try reflexivity.
  destruct (provide_automatic_options r && (upper (method req) =? "OPTIONS"));
    [reflexivity|].
  destruct (lookup (endpoint r) (view_functions (flask_app w))) as [f|];
    [|reflexivity].
  destruct (functions f) as [v|] eqn:Hf; [|reflexivity].
  pose proof (stateless_keeps_app (functions_stateless f Hf) kw w) as Hk.
  unfold bind, ret.
  destruct (v kw w) as [[rv|[c|e]] w']; simpl in *; exact Hk.
Qed.

Lemma serve_keeps_app reqs : forall w,
  flask_app (snd (serve functions reqs w)) = flask_app w.
Proof.
  induction reqs as [|req reqs IH]; intros w; simpl; [reflexivity|].
  pose proof (wsgi_app_keeps_app req w) as Hk.
  destruct (wsgi_app functions req w) as [r w1]. simpl in Hk.
  specialize (IH w1).
  destruct (serve functions reqs w1) as [rs w2]. simpl in *. congruence.
Qed.

Lemma serve_snoc reqs req : forall w,
  serve functions (reqs ++ [req]) w =
  ((fst (serve functions reqs w) ++
    [fst (wsgi_app functions req (snd (serve functions reqs w)))])%list,
   snd (wsgi_app functions req (snd (serve functions reqs w)))).
Proof.
  induction reqs as [|r0 reqs IH]; intros w; simpl.
  - destruct (wsgi_app functions req w); reflexivity.
  - destruct (wsgi_app functions r0 w) as [r w1].
    rewrite (IH w1).
    destruct (serve functions reqs w1) as [rs w2]. reflexivity.
Qed.

(** C8: the three views are stateless, so the application object is the
    same after any run of requests as at start-up, and the response to a
    request that follows any others is the one a program just started on
    the same host state would give. *)
Theorem handlers_are_stateless :
  stateless health /\ stateless home /\ stateless metrics /\
  (forall reqs h, flask_app (snd (main reqs h)) = app) /\
  (forall reqs req h,
     fst (main (reqs ++ [req]) h) =
     (fst (main reqs h) ++
      [fst (wsgi_app functions req (boot (machine (snd (main reqs h)))))])%list).
Proof.
  split; [apply health_stateless|].
  split; [apply home_stateless|].
  split; [apply metrics_stateless|].
  split.
  - intros reqs h. unfold main. now rewrite serve_keeps_app.
  - intros reqs req h. unfold main. rewrite serve_snoc. simpl.
    pose proof (serve_keeps_app reqs (boot h)) as Hk.
    destruct (snd (serve functions reqs (boot h))) as [a m]. simpl in *.
    subst a. reflexivity.
Qed.

End State.

(* ===================================================================== *)
(** ** Routing: unknown paths and other methods *)
(* ===================================================================== *)

Section Routing.
Context {H : Host}.





Lemma allows_only_get_head_options r m :
  methods r = ["GET"; "OPTIONS"; "HEAD"] ->
  ~ In m ["GET"; "HEAD"; "OPTIONS"] ->
  allows r m = false.
Proof.
  intros Hr Hm. unfold allows. rewrite Hr. cbn [existsb].
  assert (Hg : m <> "GET") by (intros E; apply Hm; simpl; auto).
  assert (Hh : m <> "HEAD") by (intros E; apply Hm; simpl; auto).
  assert (Ho : m <> "OPTIONS") by (intros E; apply Hm; simpl; auto).
  apply String.eqb_neq in Hg, Hh, Ho. now rewrite Hg, Hh, Ho.
Qed.

Lemma app_rules_methods :
  Forall (fun r => methods r = ["GET"; "OPTIONS"; "HEAD"]) (url_map app).
Proof. repeat constructor. Qed.

(** An OPTIONS request that matches a rule is answered by Flask. *)
Lemma wsgi_app_options code req w r kw :
  match_request (url_map (flask_app w)) req = Matched r kw ->
  provide_automatic_options r = true ->
  upper (method req) = "OPTIONS" ->
  wsgi_app code req w = (default_options_response, w).
Proof.
  intros Hm Hp Ho.
  unfold wsgi_app, try_except, dispatch_request. rewrite Hm, Hp, Ho.
  cbn [andb]. rewrite String.eqb_refl. unfold finalize.
  destruct (method req =? "HEAD") eqn:E; [|reflexivity].
  apply String.eqb_eq in E. rewrite E in Ho. discriminate.
Qed.

(** All rules of the application allow HEAD exactly when they allow GET. *)
Lemma match_rules_head_as_get rules p : forall seen,
  Forall (fun r => allows r "HEAD" = allows r "GET") rules ->
  match_rules rules p "HEAD" seen = match_rules rules p "GET" seen.
Proof.
  induction rules as [|r rules IH]; intros seen Hall; [reflexivity|].
  inversion Hall as [|? ? Hr Hrest]; subst. cbn [match_rules].
  rewrite Hr.
  destruct (match_pattern (pat r) p); destruct (allows r "GET");
    try reflexivity; now apply IH.
Qed.

Lemma match_request_head_as_get p :
  match_request (url_map app) (HEAD p) = match_request (url_map app) (GET p).
Proof.
  unfold match_request.
  change (upper (method (HEAD p))) with "HEAD".
  change (upper (method (GET p))) with "GET".
  change (path (HEAD p)) with p. change (path (GET p)) with p.
  assert (Hall : Forall (fun r => allows r "HEAD" = allows r "GET")
                        (url_map app)) by (repeat constructor).
  rewrite (match_rules_head_as_get _ _ Hall).
  destruct (match_rules (url_map app) (path_part p) "GET" []) as [? ?| |seen];
    [reflexivity | reflexivity |].
  now rewrite (match_rules_head_as_get _ seen Hall).
Qed.

(** A HEAD request is answered like the GET request for the same path,
    without the body, whatever the functions of the process. *)
Lemma head_as_get code p w :
  flask_app w = app ->
  wsgi_app code (HEAD p) w =
  (without_body (fst (wsgi_app code (GET p) w)),
   snd (wsgi_app code (GET p) w)).
Proof.
  intros Ha. unfold wsgi_app, try_except, dispatch_request.
  rewrite Ha, match_request_head_as_get.
  change (upper (method (HEAD p)) =? "OPTIONS") with false.
  change (upper (method (GET p)) =? "OPTIONS") with false.
  destruct (match_request (url_map app) (GET p)) as [r kw| | |];
    try reflexivity.
  rewrite andb_false_r.
  destruct (lookup (endpoint r) (view_functions app)) as [f|]; [|reflexivity].
  destruct (code f) as [v|]; [|reflexivity].
  unfold bind, ret.
  destruct (v kw w) as [[rv|[c|e]] w']; reflexivity.
Qed.

(** An OPTIONS request to one of the three routes matches its rule. *)
Lemma options_matches req :
  upper (method req) = "OPTIONS" ->
  In (path_part (path req)) ["/health"; "/"; "/metrics"] ->
  exists r kw,
    match_request (url_map app) req = Matched r kw /\
    provide_automatic_options r = true.
Proof.
  intros Ho Hp. unfold match_request. rewrite Ho.
  destruct Hp as [<-|[<-|[<-|[]]]]; do 2 eexists; split; reflexivity.
Qed.

(** C10, amended: the three routes allow GET, OPTIONS and HEAD, as every
    rule of the application does.  A request to one of them with another
    method is answered with 405 whatever the functions of the process
    are, so no view runs, and the world is left as it was; a HEAD request
    runs the view and gets the response of the GET request without its
    body; an OPTIONS request gets Flask's own 200 without a body, no view
    being run. *)
Theorem other_methods_not_allowed
    (code : string -> option view) (req : Request) (w : World) :
  flask_app w = app ->
  In (path_part (path req)) ["/health"; "/"; "/metrics"] ->
  Forall (fun r => methods r = ["GET"; "OPTIONS"; "HEAD"]) (url_map app) /\
  (~ In (upper (method req)) ["GET"; "HEAD"; "OPTIONS"] ->
   wsgi_app code req w = (error_response 405, w)) /\
  (method req = "HEAD" ->
   wsgi_app code req w =
   (without_body (fst (wsgi_app code (GET (path req)) w)),
    snd (wsgi_app code (GET (path req)) w))) /\
  (upper (method req) = "OPTIONS" ->
   wsgi_app code req w = (default_options_response, w) /\
   status default_options_response = 200%Z /\
   body default_options_response = BEmpty).
Proof.
  intros Ha Hp.
  split; [exact app_rules_methods|]. split; [|split].
  - intros Hm.
    assert (Hno : Forall (fun r => allows r (upper (method req)) = false)
                         (url_map app)).
    { eapply Forall_impl; [|apply app_rules_methods].
      intros r Hr. now apply allows_only_get_head_options. }
    assert (Hh : (method req =? "HEAD") = false)
      by (apply String.eqb_neq; intros E; apply Hm; rewrite E; simpl; auto).
    assert (Hroute : match_request (url_map app) req =
                     MethodNotAllowed ["GET"; "OPTIONS"; "HEAD";
                                       "GET"; "OPTIONS"; "HEAD"]).
    { unfold match_request.
      rewrite (@match_rules_not_allowed _ _ _ _ Hno).
      rewrite (@match_rules_not_allowed _ _ _ _ Hno).
      destruct Hp as [<-|[<-|[<-|[]]]]; reflexivity. }
    unfold wsgi_app, try_except, dispatch_request.
    rewrite Ha, Hroute. simpl. unfold finalize. now rewrite Hh.
  - intros Hh.
    replace req with (HEAD (path req)) at 1
      by (destruct req as [m p]; simpl in *; subst m; reflexivity).
    now apply head_as_get.
  - intros Ho. split; [|split; reflexivity].
    destruct (options_matches req Ho Hp) as (r & kw & Hr & Hopt).
    apply wsgi_app_options with (r := r) (kw := kw); auto. now rewrite Ha.
Qed.

End Routing.

(* ===================================================================== *)
(** ** Repeated calls *)
(* ===================================================================== *)

Section Repeated.
Context {H : Host}.

(** A GET /metrics answered with 200 is one whose view returned. *)
Lemma metrics_200_returned w :
  flask_app w = app ->
  status (fst (wsgi_app functions (GET "/metrics") w)) = 200%Z ->
  exists rv w', metrics [] w = (Returned rv, w').
Proof.
  intros Ha. rewrite (wsgi_app_metrics w Ha).
  destruct (metrics [] w) as [[rv|e] w'] eqn:Hm; [eauto|].
  destruct (metrics_raised _ _ Hm) as (x & -> & _). discriminate.
Qed.

Lemma app_up_once w :
  single_line_floats ->
  flask_app w = app ->
  status (fst (wsgi_app functions (GET "/metrics") w)) = 200%Z ->
  app_up_samples (fst (wsgi_app functions (GET "/metrics") w)) = ["1"].
Proof.
  intros Hfl Ha H200.
  destruct (metrics_200_returned w Ha H200) as (rv & w' & Hm).
  destruct (metrics_success w Ha Hm) as (c & h1 & m & _ & _ & _ & ->).
  unfold app_up_samples, families. cbn [fst body].
  now rewrite (metrics_output_families c (percent m) Hfl).
Qed.

Lemma app_up_serve reqs : forall w,
  single_line_floats ->
  flask_app w = app ->
  Forall (fun rr => fst rr = GET "/metrics" ->
                    status (snd rr) = 200%Z ->
                    app_up_samples (snd rr) = ["1"])
         (combine reqs (fst (serve functions reqs w))).
Proof.
  induction reqs as [|req reqs IH]; intros w Hfl Ha; simpl; [constructor|].
  pose proof (wsgi_app_keeps_app req w) as Hk.
  pose proof (app_up_once w Hfl Ha) as Hone.
  destruct (wsgi_app functions req w) as [r w1] eqn:Hw. simpl in Hk.
  specialize (IH w1 Hfl ltac:(congruence)).
  destruct (serve functions reqs w1) as [rs w2]. simpl in *.
  constructor; [|exact IH].
  simpl. intros -> H200. rewrite Hw in Hone. now apply Hone.
Qed.

(** When the samplers return, GET /metrics is answered with 200 and the
    single app_up sample 1. *)
Lemma app_up_when_sampled w :
  single_line_floats ->
  flask_app w = app ->
  samplers_return (machine w) ->
  status (fst (wsgi_app functions (GET "/metrics") w)) = 200%Z /\
  app_up_samples (fst (wsgi_app functions (GET "/metrics") w)) = ["1"].
Proof.
  intros Hfl Ha (c & h1 & m & h2 & Hc & Hv).
  pose proof (metrics_returns [] w Hc Hv) as Hm.
  destruct (metrics_success w Ha Hm) as (c' & h1' & m' & _ & _ & _ & ->).
  split; [reflexivity|].
  unfold app_up_samples, families. cbn [fst body].
  now rewrite (metrics_output_families c' (percent m') Hfl).
Qed.

(** C6: however many requests are served and whatever the samplers read,
    every GET /metrics answered with 200 has exactly one app_up sample,
    the literal 1; and after any run of requests, a GET /metrics during
    which the samplers return is answered with 200 and that sample. *)
Theorem app_up_is_always_one (reqs : list Request) (h : host) :
  single_line_floats ->
  Forall (fun rr => fst rr = GET "/metrics" ->
                    status (snd rr) = 200%Z ->
                    app_up_samples (snd rr) = ["1"])
         (combine reqs (fst (main reqs h))) /\
  (samplers_return (machine (snd (main reqs h))) ->
   let r := fst (wsgi_app functions (GET "/metrics") (snd (main reqs h))) in
   fst (main (reqs ++ [GET "/metrics"]) h) = (fst (main reqs h) ++ [r])%list /\
   status r = 200%Z /\
   app_up_samples r = ["1"]).
Proof.
  intros Hfl. split; [now apply app_up_serve|].
  intros Hs r. subst r. split.
  - unfold main. now rewrite serve_snoc.
  - apply app_up_when_sampled; [exact Hfl | | exact Hs].
    unfold main. now rewrite serve_keeps_app.
Qed.

End Repeated.

(* ===================================================================== *)
(** ** The theorems on the simulated host *)
(* ===================================================================== *)

Lemma health_response_witness :
  let r := fst (wsgi_app functions (GET "/health") (boot machine0)) in
  status r = 200%Z /\
  content_type r = Some "application/json" /\
  body r = BJson (JObj [("status", JStr "healthy");
                        ("timestamp", JNum (17000000000%Z : @pyfloat SimHost))]) /\
  (forall fields, body r = BJson (JObj fields) ->
                  map fst fields = ["status"; "timestamp"]).
Proof. apply (@health_response SimHost (boot machine0)). reflexivity. Defined.

Lemma home_response_witness :
  let r := fst (wsgi_app functions (GET "/") (boot machine0)) in
  status r = 200%Z /\
  (exists txt, body r = BText txt /\ txt <> "" /\
               contains "Hello! I'm a simple monitored service!" txt = true) /\
  (forall kw w0, exists rv, home kw w0 = (Returned rv, w0)).
Proof. apply (@home_response SimHost (boot machine0)). reflexivity. Defined.

Lemma metrics_response_format_witness :
  let r := fst (wsgi_app functions (GET "/metrics") (boot machine0)) in
  status r = 200%Z /\
  content_type r = Some "text/plain" /\
  exists c m, families r = three_gauges c m.
Proof.
  eapply (@metrics_response_format SimHost (boot machine0)).
  - apply sim_single_line_floats.
  - reflexivity.
  - reflexivity.
Defined.

Lemma metrics_sampler_failure_witness :
  fst (metrics [] (boot sandbox0)) = Raised (Error "PermissionError") /\
  let r := fst (wsgi_app functions (GET "/metrics") (boot sandbox0)) in
  status r = 500%Z /\ status r <> 200%Z /\ families r = [].
Proof.
  apply (@metrics_sampler_failure SimHost (boot sandbox0) "PermissionError").
  - reflexivity.
  - left. reflexivity.
Defined.

Lemma metrics_takes_a_second_witness :
  let w1 := snd (wsgi_app functions (GET "/metrics") (boot machine0)) in
  (exists c h1, sys_cpu_percent 1 (machine (boot machine0)) = (inr c, h1)) /\
  wall (machine (boot machine0)) + 1 <= wall (machine w1).
Proof.
  eapply (@metrics_takes_a_second SimHost (boot machine0)).
  - apply sim_sampler_blocks.
  - apply sim_clock_moves_on.
  - reflexivity.
  - reflexivity.
Defined.

Lemma metrics_values_in_range_witness :
  let r := fst (wsgi_app functions (GET "/metrics") (boot machine0)) in
  exists c m,
    Exposition.samples_of "cpu_usage_percent" (families r) = [float_str c] /\
    is_percentage c /\
    Exposition.samples_of "memory_usage_percent" (families r) = [float_str m] /\
    is_percentage m.
Proof.
  eapply (@metrics_values_in_range SimHost (boot machine0)).
  - apply sim_single_line_floats.
  - apply sim_samplers_give_percentages.
  - reflexivity.
  - reflexivity.
Defined.

Lemma app_up_is_always_one_witness :
  let reqs := [GET "/metrics"; GET "/health"] in
  let r := fst (wsgi_app functions (GET "/metrics")
                  (snd (main reqs machine0))) in
  Forall (fun rr => fst rr = GET "/metrics" ->
                    status (snd rr) = 200%Z ->
                    app_up_samples (snd rr) = ["1"])
         (combine reqs (fst (main reqs machine0))) /\
  fst (main (reqs ++ [GET "/metrics"]) machine0) =
  (fst (main reqs machine0) ++ [r])%list /\
  status r = 200%Z /\
  app_up_samples r = ["1"].
Proof.
  destruct (@app_up_is_always_one SimHost [GET "/metrics"; GET "/health"]
              machine0 sim_single_line_floats) as [Hall Hnext].
  split; [exact Hall|].
  apply Hnext. do 4 eexists. split; reflexivity.
Defined.


Lemma other_methods_not_allowed_witness :
  Forall (fun r => methods r = ["GET"; "OPTIONS"; "HEAD"]) (url_map app) /\
  wsgi_app functions (POST "/metrics") (boot machine0) =
  (error_response 405, boot machine0) /\
  (wsgi_app functions (HEAD "/metrics") (boot machine0) =
   (without_body (fst (wsgi_app functions (GET "/metrics") (boot machine0))),
    snd (wsgi_app functions (GET "/metrics") (boot machine0))) /\
   status (fst (wsgi_app functions (HEAD "/metrics") (boot machine0))) =
   200%Z /\
   body (fst (wsgi_app functions (HEAD "/metrics") (boot machine0))) =
   BEmpty) /\
  wsgi_app functions (OPTIONS "/metrics") (boot sandbox0) =
  (default_options_response, boot sandbox0).
Proof.
  destruct (@other_methods_not_allowed SimHost functions (POST "/metrics")
              (boot machine0) eq_refl ltac:(simpl; auto))
    as (Hrules & H405 & _ & _).
  destruct (@other_methods_not_allowed SimHost functions (HEAD "/metrics")
              (boot machine0) eq_refl ltac:(simpl; auto))
    as (_ & _ & Hhead & _).
  destruct (@other_methods_not_allowed SimHost functions (OPTIONS "/metrics")
              (boot sandbox0) eq_refl ltac:(simpl; auto))
    as (_ & _ & _ & Hopt).
  split; [exact Hrules|]. split; [|split].
  - apply H405. simpl. intros [E|[E|[E|[]]]]; discriminate E.
  - split; [exact (Hhead eq_refl)|]. split; reflexivity.
  - exact (proj1 (Hopt eq_refl)).
Defined.


(** The static folder is a fourth route: a file in it is served. *)
Example static_file_is_served :
  fst (wsgi_app functions (GET "/static/style.css") (boot machine_css)) =
  {| status := 200; headers := [("Content-Type", "text/css; charset=utf-8")];
     body := BFile "body {}" |}.
Proof. reflexivity. Qed.

(** A file of the static folder that cannot be read is a 500. *)
Example static_unreadable_is_500 :
  fst (wsgi_app functions (GET "/static/private.css") (boot machine_css)) =
  error_response 500.
Proof. reflexivity. Qed.

(** C10 as stated fails: HEAD is a method other than GET, and a HEAD
    request to /metrics is answered with 200 after [metrics] has run, the
    clock of the host having moved by the second of the sampling. *)
Lemma head_metrics_runs_the_view :
  let req := HEAD "/metrics" in
  let rw := wsgi_app functions req (boot machine0) in
  method req <> "GET" /\
  status (fst rw) = 200%Z /\ status (fst rw) <> 405%Z /\
  Sim.clock (machine (snd rw)) = (Sim.clock machine0 + 10)%Z /\
  fst (wsgi_app (fun _ => None) req (boot machine0)) <> fst rw.
Proof.
  repeat split; try discriminate; reflexivity.
Qed.

(** OPTIONS is answered by Flask itself, with 200. *)
Example options_is_answered :
  fst (wsgi_app functions {| method := "OPTIONS"; path := "/health" |}
         (boot machine0)) = default_options_response.
Proof. reflexivity. Qed.

(* ===================================================================== *)
(** ** Further properties: how a request finds its view *)
(* ===================================================================== *)

Lemma match_rules_found rules p m : forall seen r kw,
  match_rules rules p m seen = Found r kw ->
  In r rules /\ match_pattern (pat r) p = Hit kw /\ allows r m = true.
Proof.
  induction rules as [|r0 rules IH]; intros seen r kw; simpl; [discriminate|].
  destruct (match_pattern (pat r0) p) as [args| |] eqn:Hp.
  - destruct (allows r0 m) eqn:Ha.
    + intros E. injection E as <- <-. auto.
    + intros E. destruct (IH _ _ _ E) as (Hin & Hhit & Hal). auto.
  - destruct (allows r0 m); [discriminate|].
    intros E. destruct (IH _ _ _ E) as (Hin & Hhit & Hal). auto.
  - intros E. destruct (IH _ _ _ E) as (Hin & Hhit & Hal). auto.
Qed.

Lemma match_request_matched rules req r kw :
  match_request rules req = Matched r kw ->
  In r rules /\
  match_pattern (pat r) (path_part (path req)) = Hit kw /\
  allows r (upper (method req)) = true.
Proof.
  unfold match_request.
  destruct (match_rules rules (path_part (path req)) (upper (method req)) [])
    as [r0 kw0| |seen] eqn:E1.
  - intros E. injection E as <- <-. eapply match_rules_found, E1.
  - discriminate.
  - destruct (match_rules rules (merge_slashes (path_part (path req)))
                (upper (method req)) seen) as [? ?| |[|? ?]]; discriminate.
Qed.

(** The four ways a request is matched by the application: by the static
    rule with the file name as argument, or by one of the three routes with
    exactly its path; the method is then GET, OPTIONS or HEAD. *)
Lemma app_route_resolution req r kw :
  match_request (url_map app) req = Matched r kw ->
  In (upper (method req)) ["GET"; "OPTIONS"; "HEAD"] /\
  provide_automatic_options r = true /\
  ((endpoint r = "static" /\
    startswith (path_part (path req)) "/static/" = true /\
    exists f, kw = [("filename", f)]) \/
   (endpoint r = "health" /\ kw = [] /\ path_part (path req) = "/health") \/
   (endpoint r = "home" /\ kw = [] /\ path_part (path req) = "/") \/
   (endpoint r = "metrics" /\ kw = [] /\ path_part (path req) = "/metrics")).
Proof.
  intros Hm. destruct (match_request_matched _ _ Hm) as (Hin & Hhit & Hal).
  set (p := path_part (path req)) in *. set (m := upper (method req)) in *.
  clearbody p m. clear Hm.
  assert (Hmeth : methods r = ["GET"; "OPTIONS"; "HEAD"] ->
                  In m ["GET"; "OPTIONS"; "HEAD"]).
  { intros Hr. unfold allows in Hal. rewrite Hr in Hal. cbn [existsb] in Hal.
    destruct (m =? "GET") eqn:E1; [apply String.eqb_eq in E1; simpl; auto|].
    destruct (m =? "OPTIONS") eqn:E2; [apply String.eqb_eq in E2; simpl; auto|].
    destruct (m =? "HEAD") eqn:E3; [apply String.eqb_eq in E3; simpl; auto|].
    discriminate. }
  change (url_map app) with
    [ {| rule := "/static/<path:filename>";
         pat := PathTail "/static/" "filename"; endpoint := "static";
         methods := ["GET"; "OPTIONS"; "HEAD"];
         provide_automatic_options := true |};
      {| rule := "/health"; pat := Leaf "/health"; endpoint := "health";
         methods := ["GET"; "OPTIONS"; "HEAD"];
         provide_automatic_options := true |};
      {| rule := "/"; pat := Branch "/"; endpoint := "home";
         methods := ["GET"; "OPTIONS"; "HEAD"];
         provide_automatic_options := true |};
      {| rule := "/metrics"; pat := Leaf "/metrics"; endpoint := "metrics";
         methods := ["GET"; "OPTIONS"; "HEAD"];
         provide_automatic_options := true |} ] in Hin.
  destruct Hin as [<-|[<-|[<-|[<-|[]]]]];
    (split; [apply Hmeth; reflexivity|]); (split; [reflexivity|]);
    cbn [pat match_pattern endpoint] in *.
  - left. split; [reflexivity|].
    destruct (startswith p "/static/"); [|discriminate].
    split; [reflexivity|].
    destruct (drop (String.length "/static/") p) as [|c rest]; [discriminate|].
    destruct (Ascii.eqb c slash); [discriminate|].
    injection Hhit as <-. eauto.
  - right; left. destruct (p =? "/health") eqn:E; [|discriminate].
    apply String.eqb_eq in E. injection Hhit as <-. auto.
  - right; right; left. destruct (p =? "/") eqn:E.
    + apply String.eqb_eq in E. injection Hhit as <-. auto.
    + destruct ((p ++ "/") =? "/"); discriminate.
  - right; right; right. destruct (p =? "/metrics") eqn:E; [|discriminate].
    apply String.eqb_eq in E. injection Hhit as <-. auto.
Qed.

Section Further.
Context {H : Host}.

Lemma status_finalize req r : status (finalize req r) = status r.
Proof. unfold finalize. destruct (method req =? "HEAD"); reflexivity. Qed.

(** A request that routing refuses is answered with the routing error and
    leaves the world as it is. *)
Lemma wsgi_app_routing_error code req w c :
  routing_error (match_request (url_map (flask_app w)) req) = Some c ->
  wsgi_app code req w = (finalize req (error_response c), w).
Proof.
  unfold wsgi_app, try_except, dispatch_request.
  destruct (match_request (url_map (flask_app w)) req); simpl;
    [discriminate| | |]; intros E; injection E as <-; reflexivity.
Qed.

(** What the static view does with the argument the static rule gives. *)
Lemma send_static_file_outcome f w :
  send_static_file [("filename", f)] w =
  match static_file f (machine w) with
  | FileResponse st hs content =>
      (Returned (Rv1 (RResp {| status := st; headers := hs;
                               body := BFile content |})), w)
  | FileMissing => (Raised (HTTPException 404), w)
  | FileError e => (Raised (Error e), w)
  end.
Proof. reflexivity. Qed.

(** What [health] and [home] give in any world. *)
Lemma health_outcome kw w :
  health kw w =
  (Returned (Rv2 (RResp (jsonify (JObj [("status", JStr "healthy");
                                        ("timestamp",
                                         JNum (fst (sys_time (machine w))))])))
                 200),
   on_machine w (snd (sys_time (machine w)))).
Proof.
  unfold health, bind, time_time, ret.
  destruct (sys_time (machine w)); reflexivity.
Qed.

(** The status of [metrics]'s answer tells whether the samplers returned. *)
Lemma metrics_outcome kw w :
  (samplers_return (machine w) /\
   exists rv w', metrics kw w = (Returned rv, w') /\
                 status (make_response rv) = 200%Z) \/
  (~ samplers_return (machine w) /\
   exists e w', metrics kw w = (Raised (Error e), w')).
Proof.
  unfold samplers_return.
  destruct (sys_cpu_percent 1 (machine w)) as [[e|c] h1] eqn:Hc.
  - right. split.
    + intros (c & h1' & m & h2 & E & _). discriminate.
    + unfold metrics, bind, psutil_cpu_percent, of_host. rewrite Hc. eauto.
  - destruct (sys_virtual_memory h1) as [[e|m] h2] eqn:Hv.
    + right. split.
      * intros (c' & h1' & m & h2' & E & Hv'). injection E as <- <-.
        rewrite Hv in Hv'. discriminate.
      * unfold metrics, bind, psutil_cpu_percent, psutil_virtual_memory,
          of_host.
        rewrite Hc. simpl. rewrite Hv. eauto.
    + left. split; [now exists c, h1, m, h2|].
      rewrite (metrics_returns kw w Hc Hv). eauto.
Qed.

(** X1: GET /metrics is answered with 200 exactly when both samplers
    return, and with 500 exactly when one of them raises. *)
Theorem metrics_status_dichotomy (w : World) :
  flask_app w = app ->
  let r := fst (wsgi_app functions (GET "/metrics") w) in
  (status r = 200%Z <-> samplers_return (machine w)) /\
  (status r = 500%Z <-> ~ samplers_return (machine w)).
Proof.
  intros Ha r. subst r. rewrite (wsgi_app_metrics w Ha).
  destruct (metrics_outcome [] w)
    as [(Hs & rv & w' & -> & H200) | (Hn & e & w' & ->)]; cbn [fst].
  - rewrite H200. split; split; auto; try discriminate; try contradiction.
  - split; split; auto; try discriminate; try contradiction.
Qed.

(** A request matched for a method other than OPTIONS runs the function
    registered for the endpoint of its rule. *)
Lemma wsgi_app_view req w r kw ep f (v : view) :
  flask_app w = app ->
  match_request (url_map app) req = Matched r kw ->
  upper (method req) <> "OPTIONS" ->
  endpoint r = ep ->
  lookup ep (view_functions app) = Some f ->
  functions f = Some v ->
  wsgi_app functions req w =
  match v kw w with
  | (Returned rv, w') => (finalize req (make_response rv), w')
  | (Raised (HTTPException c), w') => (finalize req (error_response c), w')
  | (Raised (Error _), w') => (finalize req (error_response 500), w')
  end.
Proof.
  intros Ha Hm Ho He Hl Hf.
  apply wsgi_app_runs_view with (r := r) (f := f).
  - now rewrite Ha.
  - apply String.eqb_neq in Ho. rewrite Ho. apply andb_false_r.
  - now rewrite Ha, He.
  - exact Hf.
Qed.

(** X2: outside the static route a 500 comes from one place only: a GET
    or HEAD request routed to /metrics during which a sampler raised.  No
    request to /health, / or an unknown path is ever answered with 500. *)
Theorem internal_error_only_from_samplers (req : Request) (w : World) :
  flask_app w = app ->
  startswith (path_part (path req)) "/static/" = false ->
  status (fst (wsgi_app functions req w)) = 500%Z ->
  path_part (path req) = "/metrics" /\
  In (upper (method req)) ["GET"; "HEAD"] /\
  ~ samplers_return (machine w).
Proof.
  intros Ha Hst H500.
  destruct (match_request (url_map app) req) as [r kw|p|ms|] eqn:Hm.
  2-4: rewrite (@wsgi_app_routing_error functions req w _
                  ltac:(rewrite Ha, Hm; reflexivity)) in H500;
       cbn [fst] in H500; rewrite status_finalize in H500; discriminate.
  destruct (app_route_resolution _ Hm) as (Hmeth & Hopt & Hcases).
  destruct (String.eqb_spec (upper (method req)) "OPTIONS") as [Ho|Ho].
  { rewrite (@wsgi_app_options _ functions req w r kw) in H500;
      [discriminate | now rewrite Ha | assumption | assumption]. }
  destruct Hcases as [(He & Hpre & _) | [(He & -> & Hp) | [(He & -> & Hp)
                     | (He & -> & Hp)]]].
  - rewrite Hst in Hpre. discriminate.
  - rewrite (@wsgi_app_view req w r _ "health" "health" health
               Ha Hm Ho He eq_refl eq_refl) in H500.
    rewrite health_outcome in H500. cbn [fst] in H500.
    rewrite status_finalize in H500. discriminate.
  - rewrite (@wsgi_app_view req w r _ "home" "home" home
               Ha Hm Ho He eq_refl eq_refl) in H500.
    cbn [fst home ret] in H500. rewrite status_finalize in H500. discriminate.
  - split; [exact Hp|]. split.
    + destruct Hmeth as [E|[E|[E|[]]]]; simpl; auto.
    + rewrite (@wsgi_app_view req w r _ "metrics" "metrics" metrics
                 Ha Hm Ho He eq_refl eq_refl) in H500.
      destruct (metrics_outcome [] w)
        as [(Hs & rv & w' & E & H200) | (Hn & _)]; [|exact Hn].
      rewrite E in H500. cbn [fst] in H500.
      rewrite status_finalize, H200 in H500. discriminate.
Qed.

End Further.

Section FurtherMethods.
Context {H : Host}.

(** X3: whatever the method and the path, a request outside the static
    route gets one of five statuses: 200, 308, 404, 405 or 500. *)
Theorem response_statuses (req : Request) (w : World) :
  flask_app w = app ->
  startswith (path_part (path req)) "/static/" = false ->
  In (status (fst (wsgi_app functions req w))) [200; 308; 404; 405; 500]%Z.
Proof.
  intros Ha Hst.
  destruct (match_request (url_map app) req) as [r kw|p|ms|] eqn:Hm.
  2-4: rewrite (@wsgi_app_routing_error _ functions req w _
                  ltac:(rewrite Ha, Hm; reflexivity));
       cbn [fst]; rewrite status_finalize; simpl; auto.
  destruct (app_route_resolution _ Hm) as (Hmeth & Hopt & Hcases).
  destruct (String.eqb_spec (upper (method req)) "OPTIONS") as [Ho|Ho].
  { rewrite (@wsgi_app_options _ functions req w r kw);
      [simpl; auto | now rewrite Ha | assumption | assumption]. }
  destruct Hcases as [(He & Hpre & _) | [(He & -> & Hp) | [(He & -> & Hp)
                     | (He & -> & Hp)]]].
  - rewrite Hst in Hpre. discriminate.
  - rewrite (@wsgi_app_view _ req w r _ "health" "health" health
               Ha Hm Ho He eq_refl eq_refl).
    rewrite health_outcome. cbn [fst]. rewrite status_finalize. simpl; auto.
  - rewrite (@wsgi_app_view _ req w r _ "home" "home" home
               Ha Hm Ho He eq_refl eq_refl).
    cbn [fst home ret]. rewrite status_finalize. simpl; auto.
  - rewrite (@wsgi_app_view _ req w r _ "metrics" "metrics" metrics
               Ha Hm Ho He eq_refl eq_refl).
    destruct (metrics_outcome [] w)
      as [(Hs & rv & w' & -> & H200) | (Hn & e & w' & ->)]; cbn [fst];
      rewrite status_finalize; [rewrite H200|]; simpl; auto 6.
Qed.

(** X4: a HEAD request is answered like the GET request for the same path,
    without the body: same status and headers, the same view run with the
    same effect on the world. *)
Theorem head_is_get_without_body (p : string) (w : World) :
  flask_app w = app ->
  wsgi_app functions (HEAD p) w =
  (without_body (fst (wsgi_app functions (GET p) w)),
   snd (wsgi_app functions (GET p) w)).
Proof.
  intros Ha. unfold wsgi_app, try_except, dispatch_request.
  rewrite Ha, match_request_head_as_get.
  change (upper (method (HEAD p)) =? "OPTIONS") with false.
  change (upper (method (GET p)) =? "OPTIONS") with false.
  destruct (match_request (url_map app) (GET p)) as [r kw| | |];
    try reflexivity.
  rewrite andb_false_r.
  destruct (lookup (endpoint r) (view_functions app)) as [f|]; [|reflexivity].
  destruct (functions f) as [v|]; [|reflexivity].
  unfold bind, ret.
  destruct (v kw w) as [[rv|[c|e]] w']; reflexivity.
Qed.

(** X5: only GET and HEAD requests run a view.  For any other method the
    response does not depend on the functions of the process and the
    world is left as it is. *)
Theorem only_get_and_head_run_a_view
    (code : string -> option view) (req : Request) (w : World) :
  flask_app w = app ->
  ~ In (upper (method req)) ["GET"; "HEAD"] ->
  wsgi_app code req w = (fst (wsgi_app (fun _ => None) req w), w).
Proof.
  intros Ha Hm.
  destruct (match_request (url_map app) req) as [r kw|p|ms|] eqn:Hr.
  2-4: rewrite !(@wsgi_app_routing_error _ _ req w _
                   ltac:(rewrite Ha, Hr; reflexivity)); reflexivity.
  destruct (app_route_resolution _ Hr) as (Hmeth & Hopt & _).
  assert (Ho : upper (method req) = "OPTIONS").
  { destruct Hmeth as [E|[E|[E|[]]]]; auto; exfalso; apply Hm; simpl; auto. }
  rewrite !(@wsgi_app_options _ _ req w r kw) by (now rewrite ?Ha).
  reflexivity.
Qed.

(** X6: an OPTIONS request to one of the three routes is answered by
    Flask itself with 200 and no body; no view runs. *)
Theorem options_is_answered_by_flask
    (code : string -> option view) (req : Request) (w : World) :
  flask_app w = app ->
  upper (method req) = "OPTIONS" ->
  In (path_part (path req)) ["/health"; "/"; "/metrics"] ->
  wsgi_app code req w = (default_options_response, w).
Proof.
  intros Ha Ho Hp.
  assert (Hr : exists r kw,
             match_request (url_map app) req = Matched r kw /\
             provide_automatic_options r = true).
  { unfold match_request. rewrite Ho.
    destruct Hp as [<-|[<-|[<-|[]]]]; do 2 eexists; split; reflexivity. }
  destruct Hr as (r & kw & Hr & Hopt).
  apply wsgi_app_options with (r := r) (kw := kw); auto. now rewrite Ha.
Qed.

End FurtherMethods.

Section FurtherRuns.
Context {H : Host}.

(** What holds of the response to every request in a started program
    holds of every response of a run. *)
Lemma serve_forall (P : Request -> Response -> Prop) :
  (forall req w, flask_app w = app ->
                 P req (fst (wsgi_app functions req w))) ->
  forall reqs w,
    flask_app w = app ->
    Forall (fun rr => P (fst rr) (snd rr))
           (combine reqs (fst (serve functions reqs w))).
Proof.
  intros HP. induction reqs as [|req reqs IH]; intros w Ha; simpl;
    [constructor|].
  pose proof (wsgi_app_keeps_app req w) as Hk.
  pose proof (HP req w Ha) as Hreq.
  destruct (wsgi_app functions req w) as [r w1]. simpl in Hk, Hreq.
  specialize (IH w1 ltac:(congruence)).
  destruct (serve functions reqs w1) as [rs w2]. simpl in *.
  constructor; assumption.
Qed.

(** X7: in any run, whatever was served before and whether or not the
    samplers work, every GET /health is answered with 200 and a healthy
    body. *)
Theorem health_is_always_healthy (reqs : list Request) (h : host) :
  Forall (fun rr => fst rr = GET "/health" ->
                    status (snd rr) = 200%Z /\
                    exists t, body (snd rr) = healthy t)
         (combine reqs (fst (main reqs h))).
Proof.
  unfold main.
  apply (serve_forall
           (fun req r => req = GET "/health" ->
                         status r = 200%Z /\ exists t, body r = healthy t));
    [|reflexivity].
  intros req w Ha ->. rewrite (wsgi_app_health w Ha), health_outcome.
  split; [reflexivity|]. eexists. reflexivity.
Qed.

(** X8: in any run and on any host, every GET / is answered with the same
    response: status 200, Content-Type text/html and the greeting. *)
Theorem home_is_constant (reqs : list Request) (h : host) :
  Forall (fun rr => fst rr = GET "/" -> snd rr = greeting_response)
         (combine reqs (fst (main reqs h))).
Proof.
  unfold main.
  apply (serve_forall (fun req r => req = GET "/" -> r = greeting_response));
    [|reflexivity].
  intros req w Ha ->. now rewrite (wsgi_app_home w Ha).
Qed.

Lemma healthy_timestamp (t t' : pyfloat) : healthy t = healthy t' -> t = t'.
Proof. intros E. now injection E. Qed.

(** X9: on a host whose clock [time.time()] reads, a liveness check
    served after a successful metrics scrape carries a timestamp at least
    one second later than a liveness check served just before the scrape. *)
Theorem health_after_metrics_is_a_second_later
    (w : World) (r1 r2 r3 : Response) (t1 t3 : pyfloat) :
  time_reads_wall -> sampler_blocks -> clock_moves_on ->
  flask_app w = app ->
  fst (serve functions [GET "/health"; GET "/metrics"; GET "/health"] w) =
  [r1; r2; r3] ->
  body r1 = healthy t1 -> status r2 = 200%Z -> body r3 = healthy t3 ->
  float_val t1 + 1 <= float_val t3.
Proof.
  intros Ht Hb Hmv Ha Hrun H1 H2 H3.
  cbn [serve] in Hrun.
  rewrite (wsgi_app_health w Ha), health_outcome in Hrun.
  set (w1 := on_machine w (snd (sys_time (machine w)))) in *.
  assert (Ha1 : flask_app w1 = app) by exact Ha.
  pose proof (metrics_200_returned w1 Ha1) as Hret.
  destruct (wsgi_app functions (GET "/metrics") w1) as [r2' w2] eqn:Hw2.
  pose proof (wsgi_app_keeps_app (GET "/metrics") w1) as Ha2.
  rewrite Hw2 in Ha2. cbn [snd] in Ha2. rewrite Ha1 in Ha2.
  rewrite (wsgi_app_health w2 Ha2), health_outcome in Hrun.
  cbn [fst snd] in Hrun. injection Hrun as <- <- <-.
  cbn [body make_response response_of_body jsonify] in H1, H3.
  apply healthy_timestamp in H1, H3. subst t1 t3.
  destruct (Hret H2) as (rv & w2' & Hm).
  destruct (metrics_success w1 Ha1 Hm) as (c & h1 & m & Hc & Hv & _ & E).
  rewrite Hw2 in E. injection E as _ <-.
  pose proof (Hb _ _ _ _ Hc) as Hstep1. pose proof (Hmv _ _ _ Hv) as Hstep2.
  destruct (Ht (machine w)) as [Hr0 Hm0]. destruct (Ht (machine w2)) as [Hr2 _].
  change (machine w1) with (snd (sys_time (machine w))) in Hstep1.
  rewrite Hr0, Hr2.
  apply Qle_trans with (wall h1); [|exact Hstep2].
  apply Qle_trans with (wall (snd (sys_time (machine w))) + 1);
    [|exact Hstep1].
  apply Qplus_le_compat; [exact Hm0 | apply Qle_refl].
Qed.

End FurtherRuns.

Section FurtherPaths.
Context {H : Host}.

Lemma path_part_extra_slash p :
  p <> "" -> path_part (String slash p) = path_part p.
Proof. destruct p as [|c p']; [contradiction | reflexivity]. Qed.

(** X10: one more leading slash does not change the answer: for every
    method and every non-empty path [p], the request for [/p] is answered
    like the request for [p]. *)
Theorem extra_leading_slash_is_ignored
    (code : string -> option view) (m p : string) (w : World) :
  p <> "" ->
  wsgi_app code {| method := m; path := String slash p |} w =
  wsgi_app code {| method := m; path := p |} w.
Proof.
  intros Hp. unfold wsgi_app, try_except, dispatch_request, match_request,
    finalize.
  cbn [path method]. now rewrite (path_part_extra_slash Hp).
Qed.

(** X11: the application also answers under /static/: a GET for
    /static/name, [name] not empty and not starting with a slash, is
    answered by the static folder for exactly that name: with the response
    built for the file, with 404 when there is no such file, and with 500
    when reading it raises; the world is left as it is. *)
Theorem static_route_serves_the_static_folder (c : ascii) (rest : string)
    (w : World) :
  flask_app w = app ->
  c <> slash ->
  let name := String c rest in
  wsgi_app functions (GET ("/static/" ++ name)) w =
  match static_file name (machine w) with
  | FileResponse st hs content =>
      ({| status := st; headers := hs; body := BFile content |}, w)
  | FileMissing => (error_response 404, w)
  | FileError _ => (error_response 500, w)
  end.
Proof.
  intros Ha Hc name. subst name.
  apply Ascii.eqb_neq in Hc.
  assert (Hm : match_request (url_map app) (GET ("/static/" ++ String c rest)) =
               Matched {| rule := "/static/<path:filename>";
                          pat := PathTail "/static/" "filename";
                          endpoint := "static";
                          methods := ["GET"; "OPTIONS"; "HEAD"];
                          provide_automatic_options := true |}
                       [("filename", String c rest)]).
  { assert (Hhit : match_pattern (PathTail "/static/" "filename")
                      ("/static/" ++ String c rest) =
                    Hit [("filename", String c rest)]).
    { unfold match_pattern.
      change (startswith ("/static/" ++ String c rest) "/static/") with true.
      change (drop (String.length "/static/") ("/static/" ++ String c rest))
        with (String c rest).
      cbv iota beta. now rewrite Hc. }
    unfold match_request.
    change (path_part (path (GET ("/static/" ++ String c rest))))
      with ("/static/" ++ String c rest).
    change (upper (method (GET ("/static/" ++ String c rest)))) with "GET".
    change (url_map app) with
      ({| rule := "/static/<path:filename>";
          pat := PathTail "/static/" "filename"; endpoint := "static";
          methods := ["GET"; "OPTIONS"; "HEAD"];
          provide_automatic_options := true |} :: tl (url_map app)).
    cbn [match_rules pat]. rewrite Hhit. reflexivity. }
  rewrite (@wsgi_app_view _ (GET ("/static/" ++ String c rest)) w _ _
             "static" "send_static_file" send_static_file
             Ha Hm ltac:(discriminate) eq_refl eq_refl eq_refl).
  rewrite send_static_file_outcome.
  destruct (static_file (String c rest) (machine w)); reflexivity.
Qed.

End FurtherPaths.

(* ===================================================================== *)
(** ** The further properties on the simulated host *)
(* ===================================================================== *)

Lemma sim_time_reads_wall : @time_reads_wall SimHost.
Proof. intros h. split; [apply Qeq_refl | apply Qle_refl]. Qed.

Lemma metrics_status_dichotomy_witness :
  let r := fst (wsgi_app functions (GET "/metrics") (boot sandbox0)) in
  (status r = 200%Z <-> samplers_return (machine (boot sandbox0))) /\
  (status r = 500%Z <-> ~ samplers_return (machine (boot sandbox0))).
Proof.
  apply (@metrics_status_dichotomy SimHost (boot sandbox0)). reflexivity.
Defined.

Lemma internal_error_only_from_samplers_witness :
  path_part (path (HEAD "//metrics")) = "/metrics" /\
  In (upper (method (HEAD "//metrics"))) ["GET"; "HEAD"] /\
  ~ samplers_return (machine (boot sandbox0)).
Proof.
  apply (@internal_error_only_from_samplers SimHost (HEAD "//metrics")
           (boot sandbox0)).
  - reflexivity.
  - reflexivity.
  - reflexivity.
Defined.

Lemma response_statuses_witness :
  In (status (fst (wsgi_app functions (POST "/metrics/") (boot machine_css))))
     [200; 308; 404; 405; 500]%Z.
Proof.
  apply (@response_statuses SimHost (POST "/metrics/") (boot machine_css)).
  - reflexivity.
  - reflexivity.
Defined.

Lemma head_is_get_without_body_witness :
  wsgi_app functions (HEAD "/metrics") (boot machine0) =
  (without_body (fst (wsgi_app functions (GET "/metrics") (boot machine0))),
   snd (wsgi_app functions (GET "/metrics") (boot machine0))).
Proof.
  apply (@head_is_get_without_body SimHost "/metrics" (boot machine0)).
  reflexivity.
Defined.

Lemma only_get_and_head_run_a_view_witness :
  wsgi_app functions (POST "/health") (boot machine0) =
  (fst (wsgi_app (fun _ => None) (POST "/health") (boot machine0)),
   boot machine0).
Proof.
  apply (@only_get_and_head_run_a_view SimHost functions (POST "/health")
           (boot machine0)).
  - reflexivity.
  - simpl. intros [E|[E|[]]]; discriminate E.
Defined.

Lemma options_is_answered_by_flask_witness :
  wsgi_app functions {| method := "OPTIONS"; path := "/metrics" |}
    (boot sandbox0) =
  (default_options_response, boot sandbox0).
Proof.
  apply (@options_is_answered_by_flask SimHost functions
           {| method := "OPTIONS"; path := "/metrics" |} (boot sandbox0)).
  - reflexivity.
  - reflexivity.
  - simpl. auto.
Defined.

Lemma health_after_metrics_is_a_second_later_witness :
  @float_val SimHost 17000000000%Z + 1 <= @float_val SimHost 17000000010%Z.
Proof.
  eapply (@health_after_metrics_is_a_second_later SimHost (boot machine0)).
  - apply sim_time_reads_wall.
  - apply sim_sampler_blocks.
  - apply sim_clock_moves_on.
  - reflexivity.
  - reflexivity.
  - reflexivity.
  - reflexivity.
  - reflexivity.
Defined.

Lemma extra_leading_slash_is_ignored_witness :
  wsgi_app functions (GET "//health") (boot machine0) =
  wsgi_app functions (GET "/health") (boot machine0).
Proof.
  apply (@extra_leading_slash_is_ignored SimHost functions "GET" "/health"
           (boot machine0)).
  discriminate.
Defined.

Lemma static_route_serves_the_static_folder_witness :
  wsgi_app functions (GET "/static/style.css") (boot machine_css) =
  ({| status := 200; headers := [("Content-Type", "text/css; charset=utf-8")];
      body := BFile "body {}" |},
   boot machine_css).
Proof.
  apply (@static_route_serves_the_static_folder SimHost "s"%char "tyle.css"
           (boot machine_css)).
  - reflexivity.
  - discriminate.
Defined.
